(** * sast-link-backend: the OAuth2 handlers and the account model

    A shallow embedding of [api/v1] (the OAuth2 handlers: client
    registration, userinfo, authorize, token, refresh and the two callbacks
    registered with the OAuth2 server) and of [model] (password check,
    account verification, user lookup), with the properties the
    specification states about them.

    Handlers are computations over an explicit [World]: the response writer,
    the session, the OAuth2 client and token stores, the key-value store and
    the relational database.  A computation either returns or panics (a nil
    dereference, an index out of range, a failed type assertion). *)

From Stdlib Require Import ZArith String Ascii List.
From stdpp Require Import gmap strings list fin_maps.

Local Open Scope string_scope.

(** ** Go values *)

(** [error] values.  A Go [error] that may be nil is an [option error].
    [LocalError] is the error type of the [result] package; that package is
    not among the sources, so its values stay symbolic: the named errors the
    handlers mention, and [Wrap], which attaches a cause to one of them. *)
Inductive error : Type :=
| gorm_ErrRecordNotFound
| redis_Nil
| oauth2_ErrInvalidAccessToken
| oauth2_ErrInvalidRefreshToken
| oauth2_ErrInvalidClient
| errors_New (msg : string)
| fmt_Errorf (format : string) (cause : error) (arg : string)
| LocalError_error (e : LocalError)
with LocalError : Type :=
| ParamError
| InternalErr
| AccessTokenErr
| GET_USERINFO_FAIL
| AUTH_ERROR
| RefreshTokenErr
| ClientErr
| Wrap (e : LocalError) (err : option error).

(** [errors.Is(err, gorm.ErrRecordNotFound)]: the errors a query produces
    carry no [Unwrap] chain, so the test is on the value itself. *)
Definition errors_Is_ErrRecordNotFound (err : error) : bool :=
  match err with
  | gorm_ErrRecordNotFound => true
  | _ => false
  end.

(** [url.Values] and [http.Header] are [map[string][]string]; a nil map is
    [None]. *)
Abbreviation Values := (gmap string (list string)).
Definition url_Values : Type := option Values.

(** [Values.Get]: the first value of the key, or the empty string; reading a
    nil map is allowed. *)
Definition Values_Get (v : url_Values) (key : string) : string :=
  match v with
  | None => ""
  | Some m =>
      match m !! key with
      | Some (x :: _) => x
      | _ => ""
      end
  end.

(** The map update of [Values.Add], [v[key] = append(v[key], value)], on a
    map that is not nil. *)
Definition Values_append (m : Values) (key value : string) : Values :=
  <[key := (default [] (m !! key) ++ [value])%list]> m.

(** What a session holds is an [interface{}]: the program stores
    [url.Values] there; any other dynamic type is [AnyString]. *)
Inductive any : Type :=
| AnyValues (v : url_Values)
| AnyString (s : string).

(** A JSON value of a [gin.H]: a string, or a [*string] (nil prints as
    null). *)
Inductive value : Type :=
| VString (s : string)
| VStringPtr (p : option string).

Abbreviation gin_H := (gmap string value).

(** The response envelope of the [result] package, symbolic as well. *)
Inductive Response : Type :=
| Failed (e : LocalError)
| Success (data : gin_H).

Inductive bytes : Type :=
| json_Marshal (v : Response).

(** What a handler does to its [http.ResponseWriter], in order. *)
Inductive WriterOp : Type :=
| SetHeader (key val : string)
| Write (body : bytes)
| JSON (code : Z) (obj : Response).

Definition http_StatusOK : Z := 200.
Definition http_StatusBadRequest : Z := 400.
Definition http_StatusInternalServerError : Z := 500.

(** [time.Duration] counts nanoseconds. *)
Definition time_Second : Z := 1000000000.
Definition time_Minute : Z := 60 * time_Second.

(** ** Records *)

(** [model.User]; the [*string] columns are [option string]. *)
Record User : Type := mkUser {
  ID : Z;
  Uid : option string;
  Email : option string;
  Password : option string;
  QQId : option string;
  LarkId : option string;
  GithubId : option string;
  WechatId : option string;
  CreatedAt : Z;
  IsDeleted : bool
}.

(** [var user User] *)
Definition zero_User : User :=
  mkUser 0 None None None None None None None 0 false.

(** [models.Client], with the fields [CreateClient] sets. *)
Record Client : Type := mkClient {
  Client_ID : string;
  Secret : string;
  Domain : string
}.

(** [oauth2.TokenInfo], with the getters the handlers call. *)
Record TokenInfo : Type := mkTokenInfo {
  GetClientID : string;
  GetUserID : string;
  GetScope : string
}.

(** An [*http.Request]: its header, the parsed form [r.Form] (nil until the
    request is parsed), and what the request carries: the pairs of its body
    and of its URL query. *)
Record Request : Type := mkRequest {
  Header : Values;
  Form : url_Values;
  Body : Values;
  URLQuery : Values
}.

(** The queries the model sends to gorm. *)
Inductive Query : Type :=
| Where_First (cond arg : string)
| First (dest : User).

Inductive QueryResult : Type :=
| Row (u : User)
| QueryError (e : error).

(** The calls to the token manager and to the user lookup, as they happen. *)
Inductive Call : Type :=
| LoadAccessToken_call (access : string)
| LoadRefreshToken_call (refresh : string)
| GetClient_call (id : string)
| OauthUserInfo_call (userID : string).

(** ** The world a handler runs in *)

Record World : Type := mkWorld {
  wWriter : list WriterOp;             (* the response, oldest first *)
  wSessionErr : option error;          (* session.Start fails with it *)
  wSessionSaved : gmap string any;     (* the session, as last saved *)
  wStore : gmap string any;            (* the session store in hand *)
  wClients : gmap string Client;       (* the OAuth2 client store *)
  wClientsErr : option error;          (* clientStore.Create fails with it *)
  wAccess : gmap string TokenInfo;     (* live access tokens *)
  wRefresh : gmap string TokenInfo;    (* live refresh tokens *)
  wRdb : gmap string (string * Z);     (* Redis: value and time to live *)
  wDb : Query -> QueryResult;          (* the relational database *)
  wCalls : list Call                   (* manager and lookup calls so far *)
}.

Definition set_wWriter (f : list WriterOp -> list WriterOp) (w : World) : World :=
  mkWorld (f (wWriter w)) (wSessionErr w) (wSessionSaved w) (wStore w)
          (wClients w) (wClientsErr w) (wAccess w) (wRefresh w) (wRdb w)
          (wDb w) (wCalls w).

Definition set_wSessionSaved (f : gmap string any -> gmap string any) (w : World) : World :=
  mkWorld (wWriter w) (wSessionErr w) (f (wSessionSaved w)) (wStore w)
          (wClients w) (wClientsErr w) (wAccess w) (wRefresh w) (wRdb w)
          (wDb w) (wCalls w).

Definition set_wStore (f : gmap string any -> gmap string any) (w : World) : World :=
  mkWorld (wWriter w) (wSessionErr w) (wSessionSaved w) (f (wStore w))
          (wClients w) (wClientsErr w) (wAccess w) (wRefresh w) (wRdb w)
          (wDb w) (wCalls w).

Definition set_wClients (f : gmap string Client -> gmap string Client) (w : World) : World :=
  mkWorld (wWriter w) (wSessionErr w) (wSessionSaved w) (wStore w)
          (f (wClients w)) (wClientsErr w) (wAccess w) (wRefresh w) (wRdb w)
          (wDb w) (wCalls w).

Definition set_wRdb (f : gmap string (string * Z) -> gmap string (string * Z)) (w : World) : World :=
  mkWorld (wWriter w) (wSessionErr w) (wSessionSaved w) (wStore w)
          (wClients w) (wClientsErr w) (wAccess w) (wRefresh w) (f (wRdb w))
          (wDb w) (wCalls w).

Definition set_wCalls (f : list Call -> list Call) (w : World) : World :=
  mkWorld (wWriter w) (wSessionErr w) (wSessionSaved w) (wStore w)
          (wClients w) (wClientsErr w) (wAccess w) (wRefresh w) (wRdb w)
          (wDb w) (f (wCalls w)).

(** ** Computations: state, and panics *)

Inductive Outcome (A : Type) : Type :=
| Return (a : A) (w : World)
| Panic (msg : string) (w : World).
Arguments Return {A} a w.
Arguments Panic {A} msg w.

Definition M (A : Type) : Type := World -> Outcome A.

#[export] Instance M_ret : MRet M := fun A a w => Return a w.
#[export] Instance M_bind : MBind M := fun A B k m w =>
  match m w with
  | Return a w' => k a w'
  | Panic msg w' => Panic msg w'
  end.

Definition panic {A : Type} (msg : string) : M A := fun w => Panic msg w.
Definition gets {A : Type} (f : World -> A) : M A := fun w => Return (f w) w.
Definition modify (f : World -> World) : M unit := fun w => Return tt (f w).

(** [*p]: a nil pointer panics. *)
Definition deref {A : Type} (p : option A) : M A :=
  match p with
  | Some a => mret a
  | None => panic "invalid memory address or nil pointer dereference"
  end.

(** [s[i]]: an index out of range panics. *)
Definition index {A : Type} (s : list A) (i : nat) : M A :=
  match s !! i with
  | Some a => mret a
  | None => panic "index out of range"
  end.

(** [Values.Add]: writing to a nil map panics. *)
Definition Values_Add (v : url_Values) (key val : string) : M url_Values :=
  match v with
  | Some m => mret (Some (Values_append m key val))
  | None => panic "assignment to entry in nil map"
  end.

(** [v.(url.Values)]: another dynamic type panics. *)
Definition assert_Values (v : any) : M url_Values :=
  match v with
  | AnyValues form => mret form
  | AnyString _ => panic "interface conversion: interface {} is not url.Values"
  end.

(** ** Strings *)

(** [strings.HasPrefix] *)
Definition strings_HasPrefix (s pre : string) : bool := String.prefix pre s.

(** [strings.Split(s, sep)] for a separator of one byte, the only kind the
    handlers pass: one piece more than [s] has separators. *)
Fixpoint strings_Split (s : string) (sep : ascii) : list string :=
  match s with
  | EmptyString => [""]
  | String c s' =>
      if Ascii.eqb c sep then "" :: strings_Split s' sep
      else match strings_Split s' sep with
           | piece :: pieces => String c piece :: pieces
           | [] => [String c ""]
           end
  end.

(** Whether [sub] occurs in [s]. *)
Fixpoint strings_Contains (s sub : string) : bool :=
  if String.prefix sub s then true
  else match s with
       | EmptyString => false
       | String _ s' => strings_Contains s' sub
       end.

(** [regexp.MatchString(pattern, s)] for a pattern without metacharacters
    (the model passes "@"): the pattern compiles, and matches where it
    occurs. *)
Definition regexp_MatchString (pattern s : string) : bool * option error :=
  (strings_Contains s pattern, None).

(** ** Requests *)

(** The pairs [ParseForm] collects: those of the body, then those of the
    URL query. *)
Definition parsed_form (r : Request) : Values :=
  union_with (fun body query => Some (body ++ query)%list) (Body r) (URLQuery r).

(** [r.ParseForm()]: fills [r.Form] when it is nil. *)
Definition ParseForm (r : Request) : Request :=
  match Form r with
  | Some _ => r
  | None => mkRequest (Header r) (Some (parsed_form r)) (Body r) (URLQuery r)
  end.

(** [r.ParseMultipartForm(0)]: calls [ParseForm] when [r.Form] is nil; the
    pairs of a multipart body are among [Body]. *)
Definition ParseMultipartForm (r : Request) : Request := ParseForm r.

(** [r.Form = form] *)
Definition set_Form (form : url_Values) (r : Request) : Request :=
  mkRequest (Header r) form (Body r) (URLQuery r).

(** gin's [c.PostForm(key)]: the first value of the key in the body. *)
Definition c_PostForm (r : Request) (key : string) : string :=
  Values_Get (Some (Body r)) key.

(** gin's [c.GetHeader(key)] *)
Definition c_GetHeader (r : Request) (key : string) : string :=
  Values_Get (Some (Header r)) key.

(** ** The response writer *)

Definition c_JSON (code : Z) (obj : Response) : M unit :=
  modify (set_wWriter (fun ops => (ops ++ [JSON code obj])%list)).

Definition w_Header_Set (key val : string) : M unit :=
  modify (set_wWriter (fun ops => (ops ++ [SetHeader key val])%list)).

Definition w_Write (body : bytes) : M unit :=
  modify (set_wWriter (fun ops => (ops ++ [Write body])%list)).

(** ** The session (go-session) *)

(** [session.Start]: fails, or hands out the store with the values last
    saved. *)
Definition session_Start : M (option error) := fun w =>
  match wSessionErr w with
  | Some err => Return (Some err) w
  | None => Return None (set_wStore (fun _ => wSessionSaved w) w)
  end.

Definition store_Get (key : string) : M (option any) :=
  gets (fun w => wStore w !! key).

Definition store_Set (key : string) (v : any) : M unit :=
  modify (set_wStore (fun vals => <[key := v]> vals)).

Definition store_Delete (key : string) : M unit :=
  modify (set_wStore (fun vals => delete key vals)).

Definition store_Save : M unit :=
  modify (fun w => set_wSessionSaved (fun _ => wStore w) w).

(** ** The OAuth2 stores and the token manager *)

(** [clientStore.Create] *)
Definition clientStore_Create (cli : Client) : M (option error) := fun w =>
  match wClientsErr w with
  | Some err => Return (Some err) w
  | None => Return None (set_wClients (fun cs => <[Client_ID cli := cli]> cs) w)
  end.

Definition log_call (c : Call) : M unit :=
  modify (set_wCalls (fun cs => (cs ++ [c])%list)).

(** [srv.Manager.LoadAccessToken]: the token's record, or an error. *)
Definition Manager_LoadAccessToken (access : string) : M (error + TokenInfo) :=
  log_call (LoadAccessToken_call access);;
  gets (fun w => match wAccess w !! access with
                 | Some ti => inr ti
                 | None => inl oauth2_ErrInvalidAccessToken
                 end).

(** [srv.Manager.LoadRefreshToken] *)
Definition Manager_LoadRefreshToken (refresh : string) : M (error + TokenInfo) :=
  log_call (LoadRefreshToken_call refresh);;
  gets (fun w => match wRefresh w !! refresh with
                 | Some ti => inr ti
                 | None => inl oauth2_ErrInvalidRefreshToken
                 end).

(** [srv.Manager.GetClient] *)
Definition Manager_GetClient (id : string) : M (error + Client) :=
  log_call (GetClient_call id);;
  gets (fun w => match wClients w !! id with
                 | Some cli => inr cli
                 | None => inl oauth2_ErrInvalidClient
                 end).

(** ** Redis and the database *)

(** [Rdb.Set(ctx, key, value, expiration)] *)
Definition Rdb_Set (key val : string) (expiration : Z) : M unit :=
  modify (set_wRdb (fun kv => <[key := (val, expiration)]> kv)).

(** [Rdb.Get(ctx, key).Result()] *)
Definition Rdb_Get (key : string) : M (string * option error) :=
  gets (fun w => match wRdb w !! key with
                 | Some (val, _) => (val, None)
                 | None => ("", Some redis_Nil)
                 end).

(** [Db. ... .First(&user).Error]: a row found overwrites [user]; an error
    leaves it as it was. *)
Definition Db_First (q : Query) (user : User) : M (User * option error) :=
  gets (fun w => match wDb w q with
                 | Row u => (u, None)
                 | QueryError e => (user, Some e)
                 end).

(** ** The OAuth2 server (go-oauth2) *)

(** The two handlers [InitServer] registers with the server. *)
Record Server : Type := mkServer {
  ClientInfoHandler : Request -> M (string * string * option error);
  UserAuthorizationHandler : Request -> M (string * option error)
}.

Section Backend.

(** What the sources at hand call but do not contain: the [util] helpers,
    [model.LoginTokenKey], [service.OauthUserInfo] (it returns a [*model.User]
    and an error), and the two entry points of the OAuth2 server library,
    which run with the server's registered handlers. *)
Variable util_GenerateUUID : string.
Variable util_GenerateRandomString : Z -> string * option error.
Variable util_GenerateToken : string -> string * option error.
Variable util_GetUsername : string -> string * option error.
Variable util_GenerateCode : string.
Variable model_LoginTokenKey : string -> string.
Variable service_OauthUserInfo : string -> M (option User * option error).
Variable Server_HandleTokenRequest : Server -> Request -> M (option error).
Variable Server_HandleAuthorizeRequest : Server -> Request -> M (option error).

(** ** Package model *)

(** [CheckPassword]: the user is looked up by email when the name holds an
    "@", by uid otherwise; then [*user.Password] is compared, whatever the
    lookup gave. *)
Definition CheckPassword (username password : string) : M (bool * option error) :=
  let user := zero_User in
  let '(matched, err2) := regexp_MatchString "@" username in
  match err2 with
  | Some e => mret (false, Some e)
  | None =>
      '(user, err) ← (if matched
                      then Db_First (Where_First "email = ?" username) user
                      else Db_First (Where_First "uid = ?" username) user);
      let exist :=
        match err with
        | Some e => if errors_Is_ErrRecordNotFound e then false else true
        | None => true
        end in
      stored ← deref (Password user);
      let exist := if decide (stored ≠ password) then false else exist in
      mret (exist, err)
  end.

(** [VerifyAccount]: a ticket is issued when no user has the email; any
    other failure of the query is returned as it is. *)
Definition VerifyAccount (username : string) : M (bool * string * option error) :=
  let isExist := true in
  let ticket := "" in
  let user := zero_User in
  '(user, err) ← Db_First (Where_First "email = ?" username) user;
  let notFound :=
    match err with
    | Some e => errors_Is_ErrRecordNotFound e
    | None => false
    end in
  if bool_decide (err ≠ None) && negb notFound then mret (isExist, ticket, err)
  else
    let isExist := if notFound then false else isExist in
    if negb isExist then
      let '(ticket, err) := util_GenerateToken username in
      (* 5min expire *)
      Rdb_Set ("TICKET:" +:+ username) ticket (time_Minute * 5);;
      mret (isExist, ticket, None)
    else mret (isExist, ticket, None).

(** [UserInfo]: on a failed query the user returned is nil. *)
Definition UserInfo (username : string) : M (option User * option error) :=
  let user := mkUser 0 (Some username) None None None None None None 0 false in
  '(user, err) ← Db_First (First user) user;
  match err with
  | Some e => mret (None, Some (fmt_Errorf "%v: User [%s] Not Exist\n" e username))
  | None => mret (Some user, None)
  end.

(** [GenerateVerifyCode] *)
Definition GenerateVerifyCode (username : string) : M string :=
  let code := util_GenerateCode in
  (* 5min expire *)
  Rdb_Set ("VERIFY_CODE:" +:+ username) code (time_Minute * 5);;
  mret code.

(** ** Package v1: the handlers *)

(** [CreateClient] *)
Definition CreateClient (r : Request) : M unit :=
  let redirectURI := c_PostForm r "redirect_uri" in
  if decide (redirectURI = "") then
    c_JSON http_StatusBadRequest (Failed ParamError)
  else
    let clientID := util_GenerateUUID in
    let '(secret, err) := util_GenerateRandomString 32 in
    match err with
    | Some _ => c_JSON http_StatusInternalServerError (Failed InternalErr)
    | None =>
        cErr ← clientStore_Create (mkClient clientID secret redirectURI);
        match cErr with
        | Some _ => c_JSON http_StatusBadRequest (Failed InternalErr)
        | None =>
            c_JSON http_StatusOK
              (Success (<["client_id" := VString clientID]>
                        (<["client_secret" := VString secret]> ∅)))
        end
    end.

(** [OauthUserInfo]: [user.Uid] and [user.Email] read through the pointer
    [user], in the error branch (the log's field) as in the success branch. *)
Definition OauthUserInfo (r : Request) : M unit :=
  let bearerToken := c_GetHeader r "Authorization" in
  if bool_decide (bearerToken = "") || negb (strings_HasPrefix bearerToken "Bearer ") then
    c_JSON http_StatusOK (Failed AccessTokenErr)
  else
    accessToken ← index (strings_Split bearerToken " ") 1;
    loaded ← Manager_LoadAccessToken accessToken;
    match loaded with
    | inl _ => c_JSON http_StatusOK (Failed AccessTokenErr)
    | inr ti =>
        (* TODO: scope check *)
        let _ := GetScope ti in
        (* the lookup goes on record, then runs *)
        log_call (OauthUserInfo_call (GetUserID ti));;
        '(user, err) ← service_OauthUserInfo (GetUserID ti);
        match err with
        | Some _ =>
            u ← deref user;
            let _ := Uid u in
            c_JSON http_StatusOK (Failed GET_USERINFO_FAIL)
        | None =>
            u ← deref user;
            c_JSON http_StatusOK
              (Success (<["email" := VStringPtr (Email u)]>
                        (<["user_id" := VStringPtr (Uid u)]> ∅)))
        end
    end.

(** [clientInfoHandler] *)
Definition clientInfoHandler (r : Request) : M (string * string * option error) :=
  let r := ParseForm (ParseMultipartForm r) in
  if decide (Values_Get (Form r) "grant_type" = "refresh_token") then
    loaded ← Manager_LoadRefreshToken (Values_Get (Form r) "refresh_token");
    match loaded with
    | inl _ => mret ("", "", Some (LocalError_error RefreshTokenErr))
    | inr ti =>
        let clientID := GetClientID ti in
        if decide (clientID = "") then mret ("", "", Some (LocalError_error ClientErr))
        else
          got ← Manager_GetClient clientID;
          match got with
          | inl _ => mret ("", "", Some (LocalError_error ClientErr))
          | inr cli =>
              let clientSecret := Secret cli in
              if decide (clientSecret = "") then
                mret ("", "", Some (LocalError_error ClientErr))
              else mret (clientID, clientSecret, None)
          end
    end
  else
    let clientID := Values_Get (Form r) "client_id" in
    if decide (clientID = "") then mret ("", "", Some (LocalError_error ClientErr))
    else
      let clientSecret := Values_Get (Form r) "client_secret" in
      if decide (clientSecret = "") then mret ("", "", Some (LocalError_error ClientErr))
      else mret (clientID, clientSecret, None).

(** The block [userAuthorizeHandler] runs at each of its failed checks: the
    form goes into the session under "ReturnUri", the session is saved, the
    AUTH_ERROR envelope is written, and the handler returns its named
    results, [userID] still empty and [err] as the check left it. *)
Definition replyAuthError (r : Request) (err : option error) : M (string * option error) :=
  let r := match Form r with None => ParseForm r | Some _ => r end in
  store_Set "ReturnUri" (AnyValues (Form r));;
  store_Save;;
  w_Header_Set "Content-Type" "application/json";;
  let response := Failed AUTH_ERROR in
  w_Write (json_Marshal response);;
  mret ("", err).

(** [userAuthorizeHandler] *)
Definition userAuthorizeHandler (r : Request) : M (string * option error) :=
  err ← session_Start;
  match err with
  | Some _ => mret ("", err)
  | None =>
      (* check if user is logged in *)
      let r := ParseForm (ParseMultipartForm r) in
      let token := Values_Get (Form r) "token" in
      if decide (token = "") then replyAuthError r err
      else
        let '(username, err) := util_GetUsername token in
        if bool_decide (err ≠ None) || bool_decide (username = "") then
          replyAuthError r err
        else
          '(rToken, err) ← Rdb_Get (model_LoginTokenKey username);
          match err with
          | Some _ => replyAuthError r err
          | None =>
              if decide (rToken ≠ token) then replyAuthError r err
              else mret (username, None)
          end
  end.

(** [InitServer]: the package's server [srv], with its two handlers set. *)
Definition srv : Server := mkServer clientInfoHandler userAuthorizeHandler.

(** [AccessToken] *)
Definition AccessToken (r : Request) : M unit :=
  err ← Server_HandleTokenRequest srv r;
  match err with
  | Some e => c_JSON http_StatusInternalServerError (Failed (Wrap InternalErr (Some e)))
  | None => mret tt
  end.

(** [RefreshToken]: the test is [err == nil]. *)
Definition RefreshToken (r : Request) : M unit :=
  err ← Server_HandleTokenRequest srv r;
  match err with
  | None => c_JSON http_StatusInternalServerError (Failed (Wrap InternalErr err))
  | Some _ => mret tt
  end.

(** [Authorize] *)
Definition Authorize (r : Request) : M unit :=
  let r := ParseForm (ParseMultipartForm r) in
  err ← session_Start;
  match err with
  | Some e => c_JSON http_StatusInternalServerError (Failed (Wrap InternalErr (Some e)))
  | None =>
      v ← store_Get "ReturnUri";
      form ← match v with
              | Some v =>
                  form ← assert_Values v;
                  Values_Add form "token" (Values_Get (Form r) "token")
              | None => mret None
              end;
      let r := set_Form form r in
      store_Delete "ReturnUri";;
      store_Save;;
      err ← Server_HandleAuthorizeRequest srv r;
      match err with
      | Some e => c_JSON http_StatusInternalServerError (Failed (Wrap InternalErr (Some e)))
      | None => mret tt
      end
  end.

(** [UserAuth]: the token is read from the body and only tested for being
    empty. *)
Definition UserAuth (r : Request) : M unit :=
  let r := ParseMultipartForm r in
  let token := c_PostForm r "token" in
  if decide (token = "") then
    w_Header_Set "Content-Type" "application/json";;
    let response := Failed AUTH_ERROR in
    w_Write (json_Marshal response)
  else mret tt.

End Backend.

(** * The vocabulary of the properties *)

(** The form value of a key, once the request is parsed. *)
Definition FormValue (r : Request) (key : string) : string :=
  Values_Get (Form (ParseForm (ParseMultipartForm r))) key.

(** The world in which the user lookup runs: the two calls are on record. *)
Definition at_user_lookup (token userID : string) (w : World) : World :=
  set_wCalls (fun cs => (cs ++ [OauthUserInfo_call userID])%list)
    (set_wCalls (fun cs => (cs ++ [LoadAccessToken_call token])%list) w).

(** The checks of [userAuthorizeHandler], in the order it makes them; each
    is reached when the ones before it passed. *)
Inductive FailedCheck
    (util_GetUsername : string -> string * option error)
    (model_LoginTokenKey : string -> string)
    (r : Request) (w : World) : Prop :=
| token_missing :
    FormValue r "token" = "" ->
    FailedCheck util_GetUsername model_LoginTokenKey r w
| username_unresolved (username : string) (err : option error) :
    FormValue r "token" ≠ "" ->
    util_GetUsername (FormValue r "token") = (username, err) ->
    err ≠ None \/ username = "" ->
    FailedCheck util_GetUsername model_LoginTokenKey r w
| login_token_not_found (username : string) :
    FormValue r "token" ≠ "" ->
    util_GetUsername (FormValue r "token") = (username, None) ->
    username ≠ "" ->
    wRdb w !! model_LoginTokenKey username = None ->
    FailedCheck util_GetUsername model_LoginTokenKey r w
| login_token_mismatch (username rToken : string) (ttl : Z) :
    FormValue r "token" ≠ "" ->
    util_GetUsername (FormValue r "token") = (username, None) ->
    username ≠ "" ->
    wRdb w !! model_LoginTokenKey username = Some (rToken, ttl) ->
    rToken ≠ FormValue r "token" ->
    FailedCheck util_GetUsername model_LoginTokenKey r w.

(** The form [Authorize] hands to the library: the parameters the session
    holds under "ReturnUri" with the request's token appended, or nil when
    the session holds none. *)
Definition replayed_form (r : Request) (w : World) : url_Values :=
  match wSessionSaved w !! "ReturnUri" with
  | Some (AnyValues (Some m)) => Some (Values_append m "token" (FormValue r "token"))
  | _ => None
  end.

(** The world in which [Authorize] calls the library: "ReturnUri" is deleted
    from the session started for the request, and the session is saved. *)
Definition session_cleared (w : World) : World :=
  set_wSessionSaved (fun _ => delete "ReturnUri" (wSessionSaved w))
    (set_wStore (fun _ => delete "ReturnUri" (wSessionSaved w)) w).

(** The query [CheckPassword] sends: by email when the username holds an
    "@", by uid otherwise. *)
Definition CheckPassword_query (username : string) : Query :=
  if strings_Contains username "@" then Where_First "email = ?" username
  else Where_First "uid = ?" username.

(** The world [userAuthorizeHandler] leaves after a failed check: the form
    is in the session started for the request, the session is saved, and
    the header and the envelope are written. *)
Definition auth_failed_world (r : Request) (w : World) : World :=
  set_wWriter (fun ops => (ops ++ [Write (json_Marshal (Failed AUTH_ERROR))])%list)
    (set_wWriter (fun ops => (ops ++ [SetHeader "Content-Type" "application/json"])%list)
       (set_wSessionSaved
          (fun _ => <["ReturnUri" := AnyValues (Form (ParseForm r))]> (wSessionSaved w))
          (set_wStore
             (fun _ => <["ReturnUri" := AnyValues (Form (ParseForm r))]> (wSessionSaved w))
             w))).

(** What [Authorize] does with the library's answer. *)
Definition report_authorize_error (err : option error) : M unit :=
  match err with
  | Some e => c_JSON http_StatusInternalServerError (Failed (Wrap InternalErr (Some e)))
  | None => mret tt
  end.

(** * Scenarios

    Concrete collaborators and worlds, on which the properties above are
    exercised and the handlers are run. *)

Definition demo_GetUsername (token : string) : string * option error :=
  if decide (token = "alice-token") then ("alice", None)
  else ("", Some (errors_New "token is invalid")).

Definition demo_LoginTokenKey (username : string) : string := "TOKEN:" +:+ username.

Definition demo_GenerateToken (username : string) : string * option error :=
  ("ticket-of-" +:+ username, None).

Definition demo_GenerateRandomString (n : Z) : string * option error :=
  ("0123456789abcdef0123456789abcdef", None).

Definition alice : User :=
  mkUser 7 (Some "B21010101") (Some "alice@njupt.edu.cn") (Some "hash-of-password")
         None None None None 0 false.

(** A lookup that finds alice, whoever is asked for. *)
Definition lookup_finds_alice (userID : string) : M (option User * option error) :=
  mret (Some alice, None).

(** A library whose token request succeeds, and one whose request fails. *)
Definition token_request_ok (s : Server) (r : Request) : M (option error) :=
  mret None.

Definition token_request_fails (s : Server) (r : Request) : M (option error) :=
  mret (Some oauth2_ErrInvalidClient).

(** A library whose authorize request is valid and reaches the step that
    asks the registered callback who the user is; with no user, or with an
    error, it stops there. *)
Definition authorize_asks_user (s : Server) (r : Request) : M (option error) :=
  '(userID, err) ← UserAuthorizationHandler s r;
  mret err.

(** A world with nothing in it: no session entry, no client, no token, no
    key in Redis, no row in the database. *)
Definition empty_World : World :=
  mkWorld [] None ∅ ∅ ∅ None ∅ ∅ ∅ (fun _ => QueryError gorm_ErrRecordNotFound) [].

(** The same, with a session backend that fails. *)
Definition session_down : World :=
  mkWorld [] (Some (errors_New "session: store unavailable")) ∅ ∅ ∅ None ∅ ∅ ∅
          (fun _ => QueryError gorm_ErrRecordNotFound) [].


(** The session holds the parameters of an earlier authorization request. *)
Definition pending_authorization : World :=
  mkWorld [] None {["ReturnUri" := AnyValues (Some {["client_id" := ["c1"]]})]} ∅ ∅ None
          ∅ ∅ ∅ (fun _ => QueryError gorm_ErrRecordNotFound) [].

(** A refresh token of client "c1", and the client. *)
Definition one_client : World :=
  mkWorld [] None ∅ ∅ {["c1" := mkClient "c1" "c1-secret" "https://app.example"]} None
          ∅ {["rt-1" := mkTokenInfo "c1" "B21010101" "all"]} ∅
          (fun _ => QueryError gorm_ErrRecordNotFound) [].

(** An access token of user "B21010101". *)
Definition one_access_token : World :=
  mkWorld [] None ∅ ∅ ∅ None {["at-1" := mkTokenInfo "c1" "B21010101" "all"]} ∅ ∅
          (fun _ => QueryError gorm_ErrRecordNotFound) [].

Definition form_request (body : Values) : Request := mkRequest ∅ None body ∅.

Definition authorize_request : Request :=
  mkRequest ∅ None ∅
    {["client_id" := ["c1"]; "response_type" := ["code"];
      "redirect_uri" := ["https://app.example/cb"]]}.

Definition bearer_request (token : string) : Request :=
  mkRequest {["Authorization" := ["Bearer " +:+ token]]} None ∅ ∅.

(** A database that holds alice, found by her email or by her uid, and
    one that cannot be reached. *)
Definition alice_db (q : Query) : QueryResult :=
  match q with
  | Where_First cond arg =>
      if bool_decide (cond = "email = ?" /\ arg = "alice@njupt.edu.cn")
         || bool_decide (cond = "uid = ?" /\ arg = "B21010101")
      then Row alice else QueryError gorm_ErrRecordNotFound
  | First dest =>
      if bool_decide (Uid dest = Some "B21010101") then Row alice
      else QueryError gorm_ErrRecordNotFound
  end.

Definition alice_registered : World :=
  mkWorld [] None ∅ ∅ ∅ None ∅ ∅ ∅ alice_db [].

Definition db_unreachable : World :=
  mkWorld [] None ∅ ∅ ∅ None ∅ ∅ ∅
          (fun _ => QueryError (errors_New "dial tcp: connection refused")) [].

(** Alice is logged in with the token "alice-token". *)
Definition alice_logged_in : World :=
  mkWorld [] None ∅ ∅ ∅ None ∅ ∅ {["TOKEN:alice" := ("alice-token", 3600 * time_Second)%Z]}
          (fun _ => QueryError gorm_ErrRecordNotFound) [].

(** The session holds something that is not a form. *)
Definition foreign_session_entry : World :=
  mkWorld [] None {["ReturnUri" := AnyString "/dashboard"]} ∅ ∅ None ∅ ∅ ∅
          (fun _ => QueryError gorm_ErrRecordNotFound) [].

(** The client store cannot be written. *)
Definition client_store_down : World :=
  mkWorld [] None ∅ ∅ ∅ (Some (errors_New "pq: connection refused")) ∅ ∅ ∅
          (fun _ => QueryError gorm_ErrRecordNotFound) [].

(** A refresh token of the client that [CreateClient] is about to
    register. *)
Definition refresh_token_of_new_client : World :=
  mkWorld [] None ∅ ∅ ∅ None ∅
          {["rt-9" := mkTokenInfo "6ba7b810-9dad-11d1-80b4-00c04fd430c8" "B21010101" "all"]}
          ∅ (fun _ => QueryError gorm_ErrRecordNotFound) [].

(** A lookup that returns the user it found together with an error. *)
Definition lookup_warns (userID : string) : M (option User * option error) :=
  mret (Some alice, Some (errors_New "profile is incomplete")).

(** A library whose authorize request fails. *)
Definition authorize_fails (s : Server) (r : Request) : M (option error) :=
  mret (Some oauth2_ErrInvalidClient).

(** A library whose authorize request succeeds without a look at the
    session. *)
Definition authorize_succeeds (s : Server) (r : Request) : M (option error) :=
  mret None.

(** * Properties *)

(** ** Running computations *)

(** A goal that the run has returned, with a fact about what it returned. *)
Ltac returned := repeat eexists; first [discriminate | done].

Lemma run_bind {A B : Type} (m : M A) (k : A -> M B) (w : World) :
  (m ≫= k) w = match m w with
               | Return a w' => k a w'
               | Panic msg w' => Panic msg w'
               end.
Proof. reflexivity. Qed.

Lemma run_ret {A : Type} (a : A) (w : World) : (mret a : M A) w = Return a w.
Proof. reflexivity. Qed.

Lemma run_c_JSON (code : Z) (obj : Response) (w : World) :
  c_JSON code obj w = Return tt (set_wWriter (fun ops => (ops ++ [JSON code obj])%list) w).
Proof. reflexivity. Qed.

(** ** Splitting the Authorization header *)

Lemma strings_Split_cons (s : string) (sep : ascii) :
  exists piece pieces, strings_Split s sep = piece :: pieces.
Proof.
  induction s as [|c s IH]; simpl.
  - by exists "", [].
  - destruct (Ascii.eqb c sep); [by eauto|].
    destruct IH as (piece & pieces & ->). by eauto.
Qed.

(** After a prefix that ends in the separator, the pieces go on with those
    of the rest: a header that starts with "Bearer " has a second piece. *)
Lemma strings_Split_Bearer (rest : string) :
  strings_Split ("Bearer " +:+ rest) " " = "Bearer" :: strings_Split rest " ".
Proof. reflexivity. Qed.

Lemma prefix_append (pre s : string) :
  String.prefix pre s = true -> exists rest, s = pre +:+ rest.
Proof.
  revert s. induction pre as [|c pre IH]; intros s H.
  - by exists s.
  - destruct s as [|d s]; [done|]. simpl in H.
    destruct (Ascii.ascii_dec c d) as [->|]; [|done].
    destruct (IH s H) as [rest ->]. by exists rest.
Qed.

Lemma Bearer_has_token (header : string) :
  strings_HasPrefix header "Bearer " = true ->
  exists token, strings_Split header " " !! 1%nat = Some token.
Proof.
  intros H. apply prefix_append in H as [rest ->].
  rewrite strings_Split_Bearer.
  destruct (strings_Split_cons rest " ") as (piece & pieces & ->).
  by exists piece.
Qed.

(** A token without a space is the second piece of "Bearer " followed by
    it. *)
Lemma strings_Split_no_sep (s : string) :
  strings_Contains s " " = false -> strings_Split s " " = [s].
Proof.
  induction s as [|c s IH]; [done|].
  intros H. cbn [strings_Split]. cbn [strings_Contains String.prefix] in H.
  destruct (Ascii.ascii_dec " " c) as [<-|Hc].
  - destruct s; discriminate.
  - destruct (Ascii.eqb c " ") eqn:E.
    + apply Ascii.eqb_eq in E. by destruct Hc.
    + by rewrite (IH H).
Qed.

Lemma Bearer_token (token : string) :
  strings_Contains token " " = false ->
  strings_Split ("Bearer " +:+ token) " " !! 1%nat = Some token.
Proof.
  intros H. by rewrite strings_Split_Bearer, (strings_Split_no_sep _ H).
Qed.

Section Properties.

Variable util_GenerateUUID : string.
Variable util_GenerateRandomString : Z -> string * option error.
Variable util_GenerateToken : string -> string * option error.
Variable util_GetUsername : string -> string * option error.
Variable model_LoginTokenKey : string -> string.
Variable service_OauthUserInfo : string -> M (option User * option error).
Variable Server_HandleTokenRequest : Server -> Request -> M (option error).
Variable Server_HandleAuthorizeRequest : Server -> Request -> M (option error).

(** ** Client registration *)

(** C4: registering a client with an empty [redirect_uri] answers 400 with
    the parameter-error envelope, and the client store is as it was. *)
Theorem CreateClient_empty_redirect_uri (r : Request) (w : World) :
  c_PostForm r "redirect_uri" = "" ->
  exists w',
    CreateClient util_GenerateUUID util_GenerateRandomString r w = Return tt w'
    /\ wWriter w' = (wWriter w ++ [JSON http_StatusBadRequest (Failed ParamError)])%list
    /\ wClients w' = wClients w.
Proof.
  intros Hempty. unfold CreateClient. rewrite Hempty.
  destruct (decide ("" = "")) as [_|Hne]; [|by destruct Hne].
  rewrite run_c_JSON. eexists. split; [reflexivity|].
  by destruct w.
Qed.

(** ** Userinfo *)

(** C5: with an Authorization header that is empty or does not start with
    "Bearer ", the handler answers with the access-token-error envelope; no
    access token is loaded and no user is looked up (the record of calls is
    as it was, and the answer does not depend on the lookup). *)
Theorem OauthUserInfo_bad_header (r : Request) (w : World) :
  c_GetHeader r "Authorization" = ""
  \/ strings_HasPrefix (c_GetHeader r "Authorization") "Bearer " = false ->
  exists w',
    OauthUserInfo service_OauthUserInfo r w = Return tt w'
    /\ w' = set_wWriter
              (fun ops => (ops ++ [JSON http_StatusOK (Failed AccessTokenErr)])%list) w
    /\ wWriter w' = (wWriter w ++ [JSON http_StatusOK (Failed AccessTokenErr)])%list
    /\ wCalls w' = wCalls w.
Proof.
  intros Hbad. unfold OauthUserInfo.
  assert (bool_decide (c_GetHeader r "Authorization" = "")
          || negb (strings_HasPrefix (c_GetHeader r "Authorization") "Bearer ")
          = true) as ->.
  { destruct Hbad as [->| ->]; [done|]. apply orb_true_r. }
  rewrite run_c_JSON. eexists. by repeat split.
Qed.

Lemma OauthUserInfo_loaded (r : Request) (w : World) (token : string) (ti : TokenInfo) :
  strings_HasPrefix (c_GetHeader r "Authorization") "Bearer " = true ->
  strings_Split (c_GetHeader r "Authorization") " " !! 1%nat = Some token ->
  wAccess w !! token = Some ti ->
  OauthUserInfo service_OauthUserInfo r w =
    match service_OauthUserInfo (GetUserID ti) (at_user_lookup token (GetUserID ti) w) with
    | Return (user, Some _) w2 =>
        (u ← deref user; c_JSON http_StatusOK (Failed GET_USERINFO_FAIL)) w2
    | Return (user, None) w2 =>
        (u ← deref user;
         c_JSON http_StatusOK
           (Success (<["email" := VStringPtr (Email u)]>
                     (<["user_id" := VStringPtr (Uid u)]> ∅)))) w2
    | Panic msg w2 => Panic msg w2
    end.
Proof.
  intros Hpre Htok Hti. unfold OauthUserInfo.
  assert (c_GetHeader r "Authorization" ≠ "") as Hne.
  { intros E. by rewrite E in Hpre. }
  rewrite bool_decide_eq_false_2 by done. rewrite Hpre. cbn [negb orb].
  rewrite run_bind. unfold index. rewrite Htok, run_ret.
  rewrite run_bind. unfold Manager_LoadAccessToken.
  rewrite run_bind. unfold log_call at 1, modify. unfold gets.
  cbn [wAccess set_wCalls]. rewrite Hti.
  rewrite run_bind. unfold log_call, modify.
  rewrite run_bind. unfold at_user_lookup.
  destruct (service_OauthUserInfo _ _) as [[user [e|]] w2|msg w2]; reflexivity.
Qed.

(** C6: with a bearer token that loads and a user lookup that finds the
    user, the handler answers with the success envelope whose data holds the
    user's email under "email" and uid under "user_id", and no other key. *)
Theorem OauthUserInfo_success
    (r : Request) (w w2 : World) (token : string) (ti : TokenInfo) (u : User) :
  strings_HasPrefix (c_GetHeader r "Authorization") "Bearer " = true ->
  strings_Split (c_GetHeader r "Authorization") " " !! 1%nat = Some token ->
  wAccess w !! token = Some ti ->
  service_OauthUserInfo (GetUserID ti) (at_user_lookup token (GetUserID ti) w)
    = Return (Some u, None) w2 ->
  exists data,
    OauthUserInfo service_OauthUserInfo r w
      = Return tt (set_wWriter
                     (fun ops => (ops ++ [JSON http_StatusOK (Success data)])%list) w2)
    /\ data !! "email" = Some (VStringPtr (Email u))
    /\ data !! "user_id" = Some (VStringPtr (Uid u))
    /\ forall key, key ≠ "email" -> key ≠ "user_id" -> data !! key = None.
Proof.
  intros Hpre Htok Hti Hlookup.
  rewrite (OauthUserInfo_loaded r w token ti Hpre Htok Hti), Hlookup.
  eexists. split; [reflexivity|]. split; [|split].
  - apply lookup_insert_eq.
  - rewrite lookup_insert_ne by done. apply lookup_insert_eq.
  - intros key H1 H2. by rewrite !lookup_insert_ne, lookup_empty.
Qed.

(** ** Token issuance and refresh *)

(** [AccessToken], the sibling of [RefreshToken]: it writes the envelope
    when the library fails, and nothing when it succeeds. *)
Lemma AccessToken_reports_failure (r : Request) (w w' : World) (err : option error) :
  Server_HandleTokenRequest (srv util_GetUsername model_LoginTokenKey) r w = Return err w' ->
  AccessToken util_GetUsername model_LoginTokenKey Server_HandleTokenRequest r w
  = match err with
    | Some e =>
        Return tt (set_wWriter
                     (fun ops => (ops ++ [JSON http_StatusInternalServerError
                                            (Failed (Wrap InternalErr (Some e)))])%list) w')
    | None => Return tt w'
    end.
Proof.
  intros Hlib. unfold AccessToken. rewrite run_bind, Hlib.
  by destruct err.
Qed.

(** C1: when the library's [HandleTokenRequest] returns a nil error,
    [RefreshToken] still writes status 500 with the internal-error envelope
    (wrapping the nil error) after whatever the library wrote; when the
    library returns an error, [RefreshToken] writes nothing of its own. *)
Theorem RefreshToken_inverted (r : Request) (w w' : World) (err : option error) :
  Server_HandleTokenRequest (srv util_GetUsername model_LoginTokenKey) r w = Return err w' ->
  RefreshToken util_GetUsername model_LoginTokenKey Server_HandleTokenRequest r w
  = match err with
    | None =>
        Return tt (set_wWriter
                     (fun ops => (ops ++ [JSON http_StatusInternalServerError
                                            (Failed (Wrap InternalErr None))])%list) w')
    | Some _ => Return tt w'
    end.
Proof.
  intros Hlib. unfold RefreshToken. rewrite run_bind, Hlib.
  destruct err as [e|]; [apply run_ret|apply run_c_JSON].
Qed.

(** ** The client-credential resolver *)

(** C3: for the grant type "refresh_token" the resolver returns, and never
    panics: with a non-nil error when the refresh token does not load, when
    its client id is empty, when the client does not load, or when the
    client's secret is empty; otherwise with the token's client id, that
    client's stored secret and a nil error. *)
Theorem clientInfoHandler_refresh_token (r : Request) (w : World) :
  FormValue r "grant_type" = "refresh_token" ->
  exists clientID clientSecret err w',
    clientInfoHandler r w = Return (clientID, clientSecret, err) w'
    /\ match wRefresh w !! FormValue r "refresh_token" with
       | None => err ≠ None
       | Some ti =>
           if decide (GetClientID ti = "") then err ≠ None
           else match wClients w !! GetClientID ti with
                | None => err ≠ None
                | Some cli =>
                    if decide (Secret cli = "") then err ≠ None
                    else clientID = GetClientID ti
                         /\ clientSecret = Secret cli
                         /\ err = None
                end
       end.
Proof.
  unfold FormValue. intros Hgrant. unfold clientInfoHandler.
  rewrite decide_True by done.
  rewrite run_bind. unfold Manager_LoadRefreshToken.
  rewrite run_bind. unfold log_call at 1, modify, gets. cbn [wRefresh set_wCalls].
  destruct (wRefresh w !! _) as [ti|]; [|returned].
  destruct (decide (GetClientID ti = "")) as [Hid|Hid]; [returned|].
  rewrite run_bind. unfold Manager_GetClient.
  rewrite run_bind. unfold log_call, modify, gets. cbn [wClients set_wCalls].
  destruct (wClients w !! _) as [cli|]; [|returned].
  destruct (decide (Secret cli = "")); returned.
Qed.

(** ** Account verification *)

(** C8: when no user has the email, [VerifyAccount] stores the ticket under
    "TICKET:" followed by the username with an expiry of five minutes (300
    seconds), and returns that ticket with [isExist] false and a nil
    error. *)
Theorem VerifyAccount_issues_ticket (username : string) (w : World) :
  wDb w (Where_First "email = ?" username) = QueryError gorm_ErrRecordNotFound ->
  exists ticket w',
    VerifyAccount util_GenerateToken username w = Return (false, ticket, None) w'
    /\ ticket = (util_GenerateToken username).1
    /\ wRdb w' !! ("TICKET:" +:+ username) = Some (ticket, 300 * time_Second)%Z
    /\ forall key, key ≠ "TICKET:" +:+ username -> wRdb w' !! key = wRdb w !! key.
Proof.
  intros Hnone. unfold VerifyAccount.
  rewrite run_bind. unfold Db_First, gets. rewrite Hnone.
  cbn [errors_Is_ErrRecordNotFound negb andb].
  rewrite andb_false_r.
  destruct (util_GenerateToken username) as [ticket err] eqn:Hgen.
  cbn [negb]. rewrite run_bind. unfold Rdb_Set, modify.
  exists ticket. eexists. split; [reflexivity|]. cbn [fst wRdb set_wRdb].
  split; [done|]. split.
  - by rewrite lookup_insert_eq.
  - intros key Hkey. by rewrite lookup_insert_ne.
Qed.

(** ** The user-authorization callback *)

Lemma ParseForm_Form (r : Request) :
  Form (ParseForm r) = Some (default (parsed_form r) (Form r)).
Proof. unfold ParseForm. by destruct (Form r) eqn:E. Qed.

Lemma ParseForm_idemp (r : Request) : ParseForm (ParseForm r) = ParseForm r.
Proof. unfold ParseForm. by destruct (Form r) eqn:E; cbn; rewrite ?E. Qed.



(** X24: when every check passes, the callback returns the username with a
    nil error: nothing is stored in the session and nothing is written. *)
Lemma userAuthorizeHandler_logged_in (r : Request) (w : World) (username : string) (ttl : Z) :
  wSessionErr w = None ->
  FormValue r "token" ≠ "" ->
  util_GetUsername (FormValue r "token") = (username, None) ->
  username ≠ "" ->
  wRdb w !! model_LoginTokenKey username = Some (FormValue r "token", ttl) ->
  userAuthorizeHandler util_GetUsername model_LoginTokenKey r w
  = Return (username, None) (set_wStore (fun _ => wSessionSaved w) w).
Proof.
  intros Hstart Htok Hname Hne Hrdb. unfold userAuthorizeHandler.
  rewrite run_bind. unfold session_Start. rewrite Hstart.
  unfold FormValue, ParseMultipartForm in *. rewrite ParseForm_idemp in *.
  rewrite decide_False by done. rewrite Hname.
  rewrite bool_decide_eq_false_2 by (intros H; by apply H).
  rewrite bool_decide_eq_false_2 by done. cbn [orb].
  rewrite run_bind. unfold Rdb_Get, gets. cbn [wRdb set_wStore].
  rewrite Hrdb. rewrite decide_False by (intros H; by apply H). reflexivity.
Qed.

(** ** The authorization redirect *)

(** [Authorize] up to its call of the library. *)
Lemma run_Authorize (r : Request) (w : World) :
  wSessionErr w = None ->
  (forall v, wSessionSaved w !! "ReturnUri" = Some v -> exists m, v = AnyValues (Some m)) ->
  Authorize util_GetUsername model_LoginTokenKey Server_HandleAuthorizeRequest r w
  = (err ← Server_HandleAuthorizeRequest (srv util_GetUsername model_LoginTokenKey)
             (set_Form (replayed_form r w) (ParseForm r));
     match err with
     | Some e =>
         c_JSON http_StatusInternalServerError (Failed (Wrap InternalErr (Some e)))
     | None => mret tt
     end) (session_cleared w).
Proof.
  intros Hstart Htyped.
  unfold Authorize, replayed_form, FormValue, session_cleared.
  unfold ParseMultipartForm. rewrite ParseForm_idemp.
  rewrite run_bind. unfold session_Start. rewrite Hstart.
  rewrite run_bind. unfold store_Get, gets. cbn [wStore set_wStore].
  destruct (wSessionSaved w !! "ReturnUri") as [v|] eqn:Hheld.
  - by destruct (Htyped v eq_refl) as [m ->].
  - reflexivity.
Qed.

Lemma session_cleared_ReturnUri (w : World) :
  wStore (session_cleared w) !! "ReturnUri" = None.
Proof. apply lookup_delete_eq. Qed.

(** C7, as the code has it: when the session starts and what it holds under
    "ReturnUri", if anything, is a [url.Values] that is not nil, [Authorize]
    runs the library's authorize handler on the request whose form is the
    replayed one (the stored parameters with the request's token appended),
    in a world where the entry is deleted from the session and the session
    is saved, and where nothing has been written yet.  What the session
    holds after the library has run is the library's doing. *)
Theorem Authorize_replays_then_delegates (r : Request) (w : World) :
  wSessionErr w = None ->
  (forall v, wSessionSaved w !! "ReturnUri" = Some v -> exists m, v = AnyValues (Some m)) ->
  Authorize util_GetUsername model_LoginTokenKey Server_HandleAuthorizeRequest r w
  = (err ← Server_HandleAuthorizeRequest (srv util_GetUsername model_LoginTokenKey)
             (set_Form (replayed_form r w) (ParseForm r));
     match err with
     | Some e =>
         c_JSON http_StatusInternalServerError (Failed (Wrap InternalErr (Some e)))
     | None => mret tt
     end) (session_cleared w)
  /\ (forall m, wSessionSaved w !! "ReturnUri" = Some (AnyValues (Some m)) ->
                replayed_form r w = Some (Values_append m "token" (FormValue r "token")))
  /\ (wSessionSaved w !! "ReturnUri" = None -> replayed_form r w = None)
  /\ wStore (session_cleared w) !! "ReturnUri" = None
  /\ wSessionSaved (session_cleared w) = wStore (session_cleared w)
  /\ (forall key, key ≠ "ReturnUri" ->
                  wStore (session_cleared w) !! key = wSessionSaved w !! key)
  /\ wWriter (session_cleared w) = wWriter w.
Proof.
  intros Hstart Htyped. split; [by apply run_Authorize|].
  split. { intros m Hheld. unfold replayed_form. by rewrite Hheld. }
  split. { intros Hheld. unfold replayed_form. by rewrite Hheld. }
  split; [apply session_cleared_ReturnUri|]. split; [done|]. split; [|done].
  intros key Hkey. unfold session_cleared. cbn. by rewrite lookup_delete_ne.
Qed.

(** X27: when the library's run leaves the session store alone,
    [Authorize] returns and the session holds no "ReturnUri" entry. *)
Lemma Authorize_session_untouched (r : Request) (w w2 : World) (err : option error) :
  wSessionErr w = None ->
  (forall v, wSessionSaved w !! "ReturnUri" = Some v -> exists m, v = AnyValues (Some m)) ->
  Server_HandleAuthorizeRequest (srv util_GetUsername model_LoginTokenKey)
    (set_Form (replayed_form r w) (ParseForm r)) (session_cleared w) = Return err w2 ->
  wStore w2 = wStore (session_cleared w) ->
  exists w',
    Authorize util_GetUsername model_LoginTokenKey Server_HandleAuthorizeRequest r w
    = Return tt w'
    /\ wStore w' !! "ReturnUri" = None.
Proof.
  intros Hstart Htyped Hlib Hsame.
  rewrite (run_Authorize r w Hstart Htyped), run_bind, Hlib.
  destruct err; eexists; (split; [reflexivity|]); cbn [wStore set_wWriter];
    rewrite Hsame; apply session_cleared_ReturnUri.
Qed.

(** X26: a "ReturnUri" entry of another dynamic type, or a nil
    [url.Values], makes [Authorize] panic: at the type assertion, or at
    [form.Add]. *)
Lemma Authorize_foreign_entry (r : Request) (w : World) (v : any) :
  wSessionErr w = None ->
  wSessionSaved w !! "ReturnUri" = Some v ->
  (forall m, v ≠ AnyValues (Some m)) ->
  exists msg w',
    Authorize util_GetUsername model_LoginTokenKey Server_HandleAuthorizeRequest r w
    = Panic msg w'.
Proof.
  intros Hstart Hheld Hforeign. unfold Authorize.
  rewrite run_bind. unfold session_Start. rewrite Hstart.
  rewrite run_bind. unfold store_Get, gets. cbn [wStore set_wStore]. rewrite Hheld.
  destruct v as [[m|]|s]; [by destruct (Hforeign m)| |]; by repeat eexists.
Qed.

(** X25: when the session cannot be started, [Authorize] answers 500 with
    the wrapped session error; the library is not called and the session is
    as it was. *)
Lemma Authorize_session_error (r : Request) (w : World) (e : error) :
  wSessionErr w = Some e ->
  Authorize util_GetUsername model_LoginTokenKey Server_HandleAuthorizeRequest r w
  = Return tt (set_wWriter
                 (fun ops => (ops ++ [JSON http_StatusInternalServerError
                                        (Failed (Wrap InternalErr (Some e)))])%list) w).
Proof.
  intros Hstart. unfold Authorize.
  rewrite run_bind. unfold session_Start. by rewrite Hstart.
Qed.

End Properties.

(** * The handlers on these scenarios *)

(** ** Where the code panics *)

(** A query that finds no row leaves [user] zero-valued, and
    [*user.Password] then dereferences nil: whatever error the query gave,
    [CheckPassword] does not return. *)
Lemma CheckPassword_no_row (username password : string) (w : World) (e : error) :
  (forall cond, wDb w (Where_First cond username) = QueryError e) ->
  CheckPassword username password w
  = Panic "invalid memory address or nil pointer dereference" w.
Proof.
  intros Hnone. unfold CheckPassword, regexp_MatchString.
  rewrite run_bind. unfold Db_First, gets.
  destruct (strings_Contains username "@"); by rewrite Hnone.
Qed.

(** A row whose password column is NULL does the same. *)
Lemma CheckPassword_null_password (username password : string) (w : World) (u : User) :
  (forall cond, wDb w (Where_First cond username) = Row u) ->
  Password u = None ->
  CheckPassword username password w
  = Panic "invalid memory address or nil pointer dereference" w.
Proof.
  intros Hrow Hnull. unfold CheckPassword, regexp_MatchString.
  rewrite run_bind. unfold Db_First, gets.
  destruct (strings_Contains username "@"); rewrite Hrow; cbn; by rewrite Hnull.
Qed.

(** With a stored password, [CheckPassword] returns whether it is the one
    given. *)
Lemma CheckPassword_row (username password stored : string) (w : World) (u : User) :
  (forall cond, wDb w (Where_First cond username) = Row u) ->
  Password u = Some stored ->
  CheckPassword username password w
  = Return (bool_decide (stored = password), None) w.
Proof.
  intros Hrow Hpw. unfold CheckPassword, regexp_MatchString.
  rewrite run_bind. unfold Db_First, gets.
  assert ((if decide (stored ≠ password) then false else true)
          = bool_decide (stored = password)) as Hcmp.
  { destruct (decide (stored ≠ password)) as [H|H].
    - by rewrite bool_decide_eq_false_2.
    - apply dec_stable in H. by rewrite bool_decide_eq_true_2. }
  destruct (strings_Contains username "@"); rewrite Hrow; cbn; rewrite Hpw; cbn;
    rewrite run_bind, run_ret, run_ret; by rewrite Hcmp.
Qed.

(** C9 fails on the code: for a username that matches no user record the
    query reports that no record was found, and [CheckPassword] panics on the
    nil password of the zero-valued user instead of returning. *)
Theorem CheckPassword_unknown_user_panics :
  CheckPassword "nobody" "secret" empty_World
  = Panic "invalid memory address or nil pointer dereference" empty_World
  /\ CheckPassword "nobody@njupt.edu.cn" "secret" empty_World
     = Panic "invalid memory address or nil pointer dereference" empty_World.
Proof.
  split; by apply CheckPassword_no_row with (e := gorm_ErrRecordNotFound).
Qed.

(** [UserInfo] returns a nil user with every error it returns. *)
Lemma UserInfo_error_is_nil_user (username : string) (w w' : World)
    (user : option User) (e : error) :
  UserInfo username w = Return (user, Some e) w' -> user = None.
Proof.
  unfold UserInfo. rewrite run_bind. unfold Db_First, gets.
  destruct (wDb w _); cbn; intros H; by inversion H.
Qed.

(** When the lookup returns an error and a nil user, the error branch of the
    handler panics at [user.Uid], before any envelope is written. *)
Lemma OauthUserInfo_nil_user
    (lookup : string -> M (option User * option error))
    (r : Request) (w w2 : World) (token : string) (ti : TokenInfo) (e : error) :
  strings_HasPrefix (c_GetHeader r "Authorization") "Bearer " = true ->
  strings_Split (c_GetHeader r "Authorization") " " !! 1%nat = Some token ->
  wAccess w !! token = Some ti ->
  lookup (GetUserID ti) (at_user_lookup token (GetUserID ti) w) = Return (None, Some e) w2 ->
  OauthUserInfo lookup r w
  = Panic "invalid memory address or nil pointer dereference" w2.
Proof.
  intros Hpre Htok Hti Hlookup.
  by rewrite (OauthUserInfo_loaded lookup r w token ti Hpre Htok Hti), Hlookup.
Qed.

(** X23: when the lookup returns an error together with a user that is not
    nil, the handler answers with the GET_USERINFO_FAIL envelope. *)
Lemma OauthUserInfo_user_and_error
    (lookup : string -> M (option User * option error))
    (r : Request) (w w2 : World) (token : string) (ti : TokenInfo) (u : User) (e : error) :
  strings_HasPrefix (c_GetHeader r "Authorization") "Bearer " = true ->
  strings_Split (c_GetHeader r "Authorization") " " !! 1%nat = Some token ->
  wAccess w !! token = Some ti ->
  lookup (GetUserID ti) (at_user_lookup token (GetUserID ti) w) = Return (Some u, Some e) w2 ->
  OauthUserInfo lookup r w
  = Return tt (set_wWriter
                 (fun ops => (ops ++ [JSON http_StatusOK (Failed GET_USERINFO_FAIL)])%list) w2).
Proof.
  intros Hpre Htok Hti Hlookup.
  by rewrite (OauthUserInfo_loaded lookup r w token ti Hpre Htok Hti), Hlookup.
Qed.

(** C10 fails on the code: the access token loads, the lookup (here
    [UserInfo], on a database without the user) returns an error and a nil
    user, and the handler panics; no GET_USERINFO_FAIL envelope is written. *)
Theorem OauthUserInfo_lookup_error_panics :
  exists w',
    OauthUserInfo UserInfo (bearer_request "at-1") one_access_token
    = Panic "invalid memory address or nil pointer dereference" w'
    /\ wWriter w' = []
    /\ wCalls w' = [LoadAccessToken_call "at-1"; OauthUserInfo_call "B21010101"].
Proof.
  eexists. split.
  - eapply OauthUserInfo_nil_user with (token := "at-1"); reflexivity.
  - split; reflexivity.
Qed.

(** ** Where the specification's statement fails *)


(** C7 does not hold after the handler has run: the session starts and
    holds no "ReturnUri"; [Authorize] deletes and saves, then the library
    asks the registered callback for the user, and the callback, finding no
    token, stores the request's parameters under "ReturnUri" again. *)
Lemma Authorize_leaves_ReturnUri :
  wSessionErr empty_World = None
  /\ exists w',
      Authorize demo_GetUsername demo_LoginTokenKey authorize_asks_user
        authorize_request empty_World = Return tt w'
      /\ wStore w' !! "ReturnUri" = Some (AnyValues (Some (URLQuery authorize_request)))
      /\ wSessionSaved w' !! "ReturnUri" = Some (AnyValues (Some (URLQuery authorize_request))).
Proof.
  split; [reflexivity|]. eexists. split; [vm_compute; reflexivity|].
  split; vm_compute; reflexivity.
Qed.

(** ** The properties at work *)

(** C1 at work: the library succeeds and [RefreshToken] writes the 500; the
    library fails and [RefreshToken] writes nothing. *)
Lemma RefreshToken_inverted_witness :
  RefreshToken demo_GetUsername demo_LoginTokenKey token_request_ok
    (form_request {["grant_type" := ["refresh_token"]]}) empty_World
  = Return tt (set_wWriter
                 (fun _ => [JSON 500 (Failed (Wrap InternalErr None))]) empty_World)
  /\ RefreshToken demo_GetUsername demo_LoginTokenKey token_request_fails
       (form_request {["grant_type" := ["refresh_token"]]}) empty_World
     = Return tt empty_World.
Proof.
  split.
  - exact (RefreshToken_inverted demo_GetUsername demo_LoginTokenKey token_request_ok
             _ empty_World empty_World None eq_refl).
  - exact (RefreshToken_inverted demo_GetUsername demo_LoginTokenKey token_request_fails
             _ empty_World empty_World (Some oauth2_ErrInvalidClient) eq_refl).
Defined.


(** C3 at work: the refresh token "rt-1" resolves to client "c1" and its
    secret. *)
Lemma clientInfoHandler_refresh_token_witness :
  FormValue (form_request {["grant_type" := ["refresh_token"];
                            "refresh_token" := ["rt-1"]]}) "grant_type" = "refresh_token"
  /\ exists w',
      clientInfoHandler (form_request {["grant_type" := ["refresh_token"];
                                        "refresh_token" := ["rt-1"]]}) one_client
      = Return ("c1", "c1-secret", None) w'.
Proof.
  assert (FormValue (form_request {["grant_type" := ["refresh_token"];
                                    "refresh_token" := ["rt-1"]]}) "grant_type"
          = "refresh_token") as Hgrant by (vm_compute; reflexivity).
  split; [exact Hgrant|].
  destruct (clientInfoHandler_refresh_token _ one_client Hgrant)
    as (clientID & clientSecret & err & w' & Hrun & Hcase).
  vm_compute in Hcase. destruct Hcase as (-> & -> & ->).
  exists w'. exact Hrun.
Defined.

(** C4 at work: a registration without [redirect_uri]. *)
Lemma CreateClient_empty_redirect_uri_witness :
  c_PostForm (form_request ∅) "redirect_uri" = ""
  /\ exists w',
      CreateClient "6ba7b810-9dad-11d1-80b4-00c04fd430c8" demo_GenerateRandomString
        (form_request ∅) one_client = Return tt w'
      /\ wWriter w' = [JSON 400 (Failed ParamError)]
      /\ wClients w' = wClients one_client.
Proof.
  split; [reflexivity|].
  exact (CreateClient_empty_redirect_uri "6ba7b810-9dad-11d1-80b4-00c04fd430c8"
           demo_GenerateRandomString (form_request ∅) one_client eq_refl).
Defined.

(** C5 at work: a Basic credential instead of a bearer token. *)
Lemma OauthUserInfo_bad_header_witness :
  strings_HasPrefix
    (c_GetHeader (mkRequest {["Authorization" := ["Basic YWxpY2U6cHc="]]} None ∅ ∅)
       "Authorization") "Bearer " = false
  /\ exists w',
      OauthUserInfo lookup_finds_alice
        (mkRequest {["Authorization" := ["Basic YWxpY2U6cHc="]]} None ∅ ∅)
        one_access_token = Return tt w'
      /\ w' = set_wWriter (fun ops => (ops ++ [JSON 200 (Failed AccessTokenErr)])%list)
                one_access_token
      /\ wWriter w' = [JSON 200 (Failed AccessTokenErr)]
      /\ wCalls w' = [].
Proof.
  split; [reflexivity|].
  exact (OauthUserInfo_bad_header lookup_finds_alice
           (mkRequest {["Authorization" := ["Basic YWxpY2U6cHc="]]} None ∅ ∅)
           one_access_token (or_intror eq_refl)).
Defined.

(** C6 at work: the access token "at-1" and a lookup that finds alice. *)
Lemma OauthUserInfo_success_witness :
  exists data,
    OauthUserInfo lookup_finds_alice (bearer_request "at-1") one_access_token
    = Return tt
        (set_wWriter (fun ops => (ops ++ [JSON 200 (Success data)])%list)
           (at_user_lookup "at-1" "B21010101" one_access_token))
    /\ data !! "email" = Some (VStringPtr (Some "alice@njupt.edu.cn"))
    /\ data !! "user_id" = Some (VStringPtr (Some "B21010101"))
    /\ forall key, key ≠ "email" -> key ≠ "user_id" -> data !! key = None.
Proof.
  exact (OauthUserInfo_success lookup_finds_alice (bearer_request "at-1")
           one_access_token (at_user_lookup "at-1" "B21010101" one_access_token)
           "at-1" (mkTokenInfo "c1" "B21010101" "all") alice
           eq_refl eq_refl eq_refl eq_refl).
Defined.

(** C7 at work: the session holds the parameters of an earlier request. *)
Lemma Authorize_replays_then_delegates_witness :
  wSessionErr pending_authorization = None
  /\ replayed_form (form_request {["token" := ["alice-token"]]}) pending_authorization
     = Some {["client_id" := ["c1"]; "token" := ["alice-token"]]}
  /\ Authorize demo_GetUsername demo_LoginTokenKey authorize_asks_user
       (form_request {["token" := ["alice-token"]]}) pending_authorization
     = (err ← authorize_asks_user (srv demo_GetUsername demo_LoginTokenKey)
                (set_Form
                   (replayed_form (form_request {["token" := ["alice-token"]]})
                      pending_authorization)
                   (ParseForm (form_request {["token" := ["alice-token"]]})));
        match err with
        | Some e => c_JSON 500 (Failed (Wrap InternalErr (Some e)))
        | None => mret tt
        end) (session_cleared pending_authorization)
  /\ wStore (session_cleared pending_authorization) !! "ReturnUri" = None.
Proof.
  split; [reflexivity|]. split; [vm_compute; reflexivity|].
  assert (forall v, wSessionSaved pending_authorization !! "ReturnUri" = Some v ->
                    exists m, v = AnyValues (Some m)) as Htyped.
  { intros v Hheld. vm_compute in Hheld. injection Hheld as <-.
    eexists. reflexivity. }
  destruct (Authorize_replays_then_delegates demo_GetUsername demo_LoginTokenKey
              authorize_asks_user (form_request {["token" := ["alice-token"]]})
              pending_authorization eq_refl Htyped)
    as (Hrun & _ & _ & Hnone & _).
  split; [exact Hrun|exact Hnone].
Defined.

(** C8 at work: no user has the email, and the ticket is on record for five
    minutes. *)
Lemma VerifyAccount_issues_ticket_witness :
  exists ticket w',
    VerifyAccount demo_GenerateToken "bob@njupt.edu.cn" empty_World
    = Return (false, ticket, None) w'
    /\ ticket = (demo_GenerateToken "bob@njupt.edu.cn").1
    /\ wRdb w' !! ("TICKET:" +:+ "bob@njupt.edu.cn") = Some (ticket, 300 * time_Second)%Z
    /\ forall key, key ≠ "TICKET:" +:+ "bob@njupt.edu.cn" ->
                   wRdb w' !! key = wRdb empty_World !! key.
Proof.
  exact (VerifyAccount_issues_ticket demo_GenerateToken "bob@njupt.edu.cn"
           empty_World eq_refl).
Defined.

(** * Further properties *)

(** ** Keys of the key-value store *)

Lemma append_inj (pre a b : string) : pre +:+ a = pre +:+ b -> a = b.
Proof.
  induction pre as [|c pre IH]; [done|].
  cbn. intros [= H]. by apply IH.
Qed.

Lemma TICKET_not_VERIFY_CODE (a b : string) : "TICKET:" +:+ a ≠ "VERIFY_CODE:" +:+ b.
Proof. cbn. discriminate. Qed.

(** ** Package model *)

Section Model.

Variable util_GenerateToken : string -> string * option error.
Variable util_GenerateCode : string.

(** [CheckPassword], outcome by outcome. *)
Lemma run_CheckPassword (username password : string) (w : World) :
  CheckPassword username password w
  = match wDb w (CheckPassword_query username) with
    | Row u =>
        match Password u with
        | Some stored => Return (bool_decide (stored = password), None) w
        | None => Panic "invalid memory address or nil pointer dereference" w
        end
    | QueryError _ => Panic "invalid memory address or nil pointer dereference" w
    end.
Proof.
  unfold CheckPassword, CheckPassword_query, regexp_MatchString.
  rewrite run_bind. unfold Db_First, gets.
  destruct (strings_Contains username "@");
    (destruct (wDb w _) as [u|e]; [|reflexivity]);
    cbn; (destruct (Password u) as [stored|]; [|reflexivity]);
    cbn; rewrite run_bind, run_ret, run_ret;
    by destruct (decide (stored ≠ password)) as [H|H%dec_stable];
       [rewrite bool_decide_eq_false_2|rewrite bool_decide_eq_true_2].
Qed.

(** X1: [CheckPassword] answers true only when the query it sends (by email
    for a username with an "@", by uid otherwise) finds a row whose stored
    password is the password given. *)
Theorem CheckPassword_true_only_on_match
    (username password : string) (w w' : World) (err : option error) :
  CheckPassword username password w = Return (true, err) w' ->
  exists u, wDb w (CheckPassword_query username) = Row u /\ Password u = Some password.
Proof.
  rewrite run_CheckPassword.
  destruct (wDb w _) as [u|e]; [|discriminate].
  destruct (Password u) as [stored|] eqn:Hpw; [|discriminate].
  intros [= Hcmp _ _]. apply bool_decide_eq_true in Hcmp as ->. by exists u.
Qed.

(** X2: whenever [CheckPassword] returns, its error is nil and the world is
    as it was: every failed query ends in the panic, none in an error
    returned to the caller. *)
Theorem CheckPassword_returns_no_error
    (username password : string) (w w' : World) (exist : bool) (err : option error) :
  CheckPassword username password w = Return (exist, err) w' ->
  err = None /\ w' = w /\ exists u, wDb w (CheckPassword_query username) = Row u.
Proof.
  rewrite run_CheckPassword.
  destruct (wDb w _) as [u|e]; [|discriminate].
  destruct (Password u) as [stored|]; [|discriminate].
  intros [= _ <- <-]. by eauto.
Qed.

(** X3: unless the query reports that no record was found, [VerifyAccount]
    issues no ticket and writes nothing: it returns [isExist] true with an
    empty ticket, and the query's error when there is one. *)
Theorem VerifyAccount_no_ticket (username : string) (w : World) :
  wDb w (Where_First "email = ?" username) ≠ QueryError gorm_ErrRecordNotFound ->
  VerifyAccount util_GenerateToken username w
  = Return (true, "",
            match wDb w (Where_First "email = ?" username) with
            | Row _ => None
            | QueryError e => Some e
            end) w.
Proof.
  intros Hfound. unfold VerifyAccount.
  rewrite run_bind. unfold Db_First, gets.
  destruct (wDb w _) as [u|e]; [reflexivity|].
  destruct e; try reflexivity. by destruct Hfound.
Qed.

(** [VerifyAccount] touches the key-value store at the ticket's key only. *)
Lemma VerifyAccount_frame (username key : string) (w w' : World)
    (res : bool * string * option error) :
  VerifyAccount util_GenerateToken username w = Return res w' ->
  key ≠ "TICKET:" +:+ username ->
  wRdb w' !! key = wRdb w !! key.
Proof.
  unfold VerifyAccount. rewrite run_bind. unfold Db_First, gets.
  destruct (wDb w _) as [u|e]; [by intros [= _ <-]|].
  destruct (errors_Is_ErrRecordNotFound e) eqn:Hnf; cbn.
  - rewrite ?andb_false_r.
    destruct (util_GenerateToken username) as [ticket gerr].
    cbn. intros [= _ <-] Hkey. cbn. by rewrite lookup_insert_ne.
  - rewrite ?andb_true_r. by intros [= _ <-].
Qed.

(** X4: verifying one account leaves the ticket of every other username as
    it was. *)
Theorem VerifyAccount_other_tickets (username other : string) (w w' : World)
    (res : bool * string * option error) :
  VerifyAccount util_GenerateToken username w = Return res w' ->
  other ≠ username ->
  wRdb w' !! ("TICKET:" +:+ other) = wRdb w !! ("TICKET:" +:+ other).
Proof.
  intros Hrun Hother. apply (VerifyAccount_frame username _ w w' res Hrun).
  intros H. by apply append_inj in H.
Qed.

(** X5: [UserInfo] always returns, with the world as it was, and with
    exactly one of a user and an error: the user is nil if and only if the
    error is not. *)
Theorem UserInfo_user_xor_error (username : string) (w : World) :
  exists user err,
    UserInfo username w = Return (user, err) w
    /\ (user = None <-> err ≠ None).
Proof.
  unfold UserInfo. rewrite run_bind. unfold Db_First, gets.
  destruct (wDb w _) as [u|e]; eexists _, _; (split; [reflexivity|]); by split.
Qed.

(** [GenerateVerifyCode], run. *)
Lemma run_GenerateVerifyCode (username : string) (w : World) :
  GenerateVerifyCode util_GenerateCode username w
  = Return util_GenerateCode
      (set_wRdb (fun kv => <["VERIFY_CODE:" +:+ username
                             := (util_GenerateCode, time_Minute * 5)%Z]> kv) w).
Proof. reflexivity. Qed.

(** X6: [GenerateVerifyCode] returns the code it generated and has it on
    record under "VERIFY_CODE:" followed by the username for five minutes
    (300 seconds); every other key is as it was. *)
Theorem GenerateVerifyCode_stores_code (username : string) (w : World) :
  exists w',
    GenerateVerifyCode util_GenerateCode username w = Return util_GenerateCode w'
    /\ wRdb w' !! ("VERIFY_CODE:" +:+ username)
       = Some (util_GenerateCode, 300 * time_Second)%Z
    /\ forall key, key ≠ "VERIFY_CODE:" +:+ username -> wRdb w' !! key = wRdb w !! key.
Proof.
  rewrite run_GenerateVerifyCode. eexists. split; [reflexivity|]. cbn [wRdb set_wRdb].
  split; [by rewrite lookup_insert_eq|].
  intros key Hkey. by rewrite lookup_insert_ne.
Qed.

(** X7: a ticket and a verification code do not overwrite each other: after
    [VerifyAccount] has issued a ticket and [GenerateVerifyCode] has run, for
    whatever usernames, the ticket is still on record, and so is the code. *)
Theorem ticket_survives_verify_code (username other : string) (w w1 : World)
    (ticket : string) :
  VerifyAccount util_GenerateToken username w = Return (false, ticket, None) w1 ->
  exists w2,
    GenerateVerifyCode util_GenerateCode other w1 = Return util_GenerateCode w2
    /\ wRdb w2 !! ("TICKET:" +:+ username) = Some (ticket, 300 * time_Second)%Z
    /\ wRdb w2 !! ("VERIFY_CODE:" +:+ other) = Some (util_GenerateCode, 300 * time_Second)%Z.
Proof.
  intros Hrun. rewrite run_GenerateVerifyCode. eexists. split; [reflexivity|].
  cbn [wRdb set_wRdb]. rewrite lookup_insert_ne
    by (intros H; symmetry in H; by apply TICKET_not_VERIFY_CODE in H).
  split; [|by rewrite lookup_insert_eq].
  revert Hrun. unfold VerifyAccount. rewrite run_bind. unfold Db_First, gets.
  destruct (wDb w _) as [u|e]; [discriminate|].
  destruct (errors_Is_ErrRecordNotFound e); cbn.
  - rewrite ?andb_false_r. destruct (util_GenerateToken username) as [t gerr].
    cbn. intros [= <- <-]. cbn. by rewrite lookup_insert_eq.
  - rewrite ?andb_true_r. discriminate.
Qed.

End Model.

(** ** Package v1 *)

Lemma prefix_app (pre s : string) : String.prefix pre (pre +:+ s) = true.
Proof.
  induction pre as [|c pre IH]; [by destruct s|].
  change (String c pre +:+ s) with (String c (pre +:+ s)). cbn [String.prefix].
  by destruct (Ascii.ascii_dec c c).
Qed.

(** The first piece ends at the first separator. *)
Lemma strings_Split_piece (piece rest : string) :
  strings_Contains piece " " = false ->
  strings_Split (piece +:+ " " +:+ rest) " " = piece :: strings_Split rest " ".
Proof.
  induction piece as [|c piece IH]; [done|].
  intros H. cbn [strings_Contains String.prefix] in H.
  change (String c piece +:+ " " +:+ rest) with (String c (piece +:+ " " +:+ rest)).
  cbn [strings_Split].
  destruct (Ascii.ascii_dec " " c) as [<-|Hc].
  - destruct piece; discriminate.
  - destruct (Ascii.eqb c " ") eqn:E.
    + apply Ascii.eqb_eq in E. by destruct Hc.
    + by rewrite (IH H).
Qed.


Section Handlers.

Variable util_GenerateUUID : string.
Variable util_GenerateRandomString : Z -> string * option error.
Variable util_GetUsername : string -> string * option error.
Variable model_LoginTokenKey : string -> string.
Variable service_OauthUserInfo : string -> M (option User * option error).
Variable Server_HandleTokenRequest : Server -> Request -> M (option error).
Variable Server_HandleAuthorizeRequest : Server -> Request -> M (option error).

(** *** Client registration *)

(** X8: with a redirect URI, a generated secret and a client store that
    takes the record, [CreateClient] answers 200 with the generated id and
    secret, and the store holds under that id the client with that secret
    and the redirect URI as its domain; every other client is as it was. *)
Theorem CreateClient_registers_client (r : Request) (w : World) (secret : string) :
  c_PostForm r "redirect_uri" ≠ "" ->
  util_GenerateRandomString 32 = (secret, None) ->
  wClientsErr w = None ->
  exists data w',
    CreateClient util_GenerateUUID util_GenerateRandomString r w = Return tt w'
    /\ wWriter w' = (wWriter w ++ [JSON http_StatusOK (Success data)])%list
    /\ data !! "client_id" = Some (VString util_GenerateUUID)
    /\ data !! "client_secret" = Some (VString secret)
    /\ wClients w' !! util_GenerateUUID
       = Some (mkClient util_GenerateUUID secret (c_PostForm r "redirect_uri"))
    /\ forall id, id ≠ util_GenerateUUID -> wClients w' !! id = wClients w !! id.
Proof.
  intros Huri Hrand Hstore. unfold CreateClient.
  rewrite decide_False by done. rewrite Hrand.
  rewrite run_bind. unfold clientStore_Create. rewrite Hstore.
  eexists _, _. split; [reflexivity|]. cbn.
  split; [done|]. split; [apply lookup_insert_eq|].
  split; [by rewrite lookup_insert_ne, lookup_insert_eq|].
  split; [apply lookup_insert_eq|].
  intros id Hid. by rewrite lookup_insert_ne.
Qed.

(** X9: [CreateClient] always returns after writing exactly one answer, and
    whenever that answer is not a 200 it is a failure envelope and the
    client store is as it was. *)
Theorem CreateClient_store_unchanged_unless_200 (r : Request) (w : World) :
  exists code obj w',
    CreateClient util_GenerateUUID util_GenerateRandomString r w = Return tt w'
    /\ wWriter w' = (wWriter w ++ [JSON code obj])%list
    /\ (code ≠ http_StatusOK -> wClients w' = wClients w /\ exists e, obj = Failed e).
Proof.
  unfold CreateClient.
  destruct (decide (c_PostForm r "redirect_uri" = "")).
  { eexists _, _, _. split; [reflexivity|]. cbn. by eauto. }
  destruct (util_GenerateRandomString 32) as [secret [e|]].
  { eexists _, _, _. split; [reflexivity|]. cbn. by eauto. }
  rewrite run_bind. unfold clientStore_Create.
  destruct (wClientsErr w) as [e|].
  - eexists _, _, _. split; [reflexivity|]. cbn. by eauto.
  - eexists _, _, _. split; [reflexivity|]. cbn. split; [done|].
    intros Hcode. by destruct Hcode.
Qed.

(** X10: the credentials [CreateClient] hands out are the ones
    [clientInfoHandler] resolves: for a refresh token of the new client, the
    resolver run after the registration returns the generated id and secret
    with a nil error. *)
Theorem CreateClient_then_clientInfoHandler
    (r r2 : Request) (w : World) (secret : string) (ti : TokenInfo) :
  c_PostForm r "redirect_uri" ≠ "" ->
  util_GenerateRandomString 32 = (secret, None) ->
  wClientsErr w = None ->
  util_GenerateUUID ≠ "" ->
  secret ≠ "" ->
  FormValue r2 "grant_type" = "refresh_token" ->
  wRefresh w !! FormValue r2 "refresh_token" = Some ti ->
  GetClientID ti = util_GenerateUUID ->
  exists w1 w2,
    CreateClient util_GenerateUUID util_GenerateRandomString r w = Return tt w1
    /\ clientInfoHandler r2 w1 = Return (util_GenerateUUID, secret, None) w2.
Proof.
  intros Huri Hrand Hstore Hid Hsecret Hgrant Htoken Hclient.
  unfold CreateClient. rewrite decide_False by done. rewrite Hrand.
  rewrite run_bind. unfold clientStore_Create. rewrite Hstore.
  eexists _, _. split; [reflexivity|].
  unfold FormValue in *. unfold clientInfoHandler. rewrite decide_True by done.
  rewrite run_bind. unfold Manager_LoadRefreshToken.
  rewrite run_bind. unfold log_call at 1, modify, gets. cbn [wRefresh set_wCalls set_wWriter set_wClients].
  rewrite Htoken, Hclient. rewrite decide_False by done.
  rewrite run_bind. unfold Manager_GetClient.
  rewrite run_bind. unfold log_call, modify, gets. cbn [wClients set_wCalls set_wWriter set_wClients].
  rewrite lookup_insert_eq. cbn [Secret]. rewrite decide_False by done. reflexivity.
Qed.

(** *** Userinfo *)

(** X11: a bearer token that does not load gets the access-token-error
    envelope; the load is on record and the user lookup is not called. *)
Theorem OauthUserInfo_token_not_loaded (r : Request) (w : World) (token : string) :
  strings_HasPrefix (c_GetHeader r "Authorization") "Bearer " = true ->
  strings_Split (c_GetHeader r "Authorization") " " !! 1%nat = Some token ->
  wAccess w !! token = None ->
  OauthUserInfo service_OauthUserInfo r w
  = Return tt
      (set_wWriter (fun ops => (ops ++ [JSON http_StatusOK (Failed AccessTokenErr)])%list)
         (set_wCalls (fun cs => (cs ++ [LoadAccessToken_call token])%list) w)).
Proof.
  intros Hpre Htok Hnone. unfold OauthUserInfo.
  assert (c_GetHeader r "Authorization" ≠ "") as Hne.
  { intros E. by rewrite E in Hpre. }
  rewrite bool_decide_eq_false_2 by done. rewrite Hpre. cbn [negb orb].
  rewrite run_bind. unfold index. rewrite Htok, run_ret.
  rewrite run_bind. unfold Manager_LoadAccessToken.
  rewrite run_bind. unfold log_call, modify, gets.
  cbn [wAccess set_wCalls]. by rewrite Hnone.
Qed.

(** What the handler does with a header "Bearer " followed by [rest]
    depends on the first piece of [rest] only. *)
Lemma OauthUserInfo_Bearer (r : Request) (w : World) (rest token : string) :
  c_GetHeader r "Authorization" = "Bearer " +:+ rest ->
  head (strings_Split rest " ") = Some token ->
  OauthUserInfo service_OauthUserInfo r w
  = (loaded ← Manager_LoadAccessToken token;
     match loaded with
     | inl _ => c_JSON http_StatusOK (Failed AccessTokenErr)
     | inr ti =>
         log_call (OauthUserInfo_call (GetUserID ti));;
         '(user, err) ← service_OauthUserInfo (GetUserID ti);
         match err with
         | Some _ => u ← deref user; c_JSON http_StatusOK (Failed GET_USERINFO_FAIL)
         | None =>
             u ← deref user;
             c_JSON http_StatusOK
               (Success (<["email" := VStringPtr (Email u)]>
                         (<["user_id" := VStringPtr (Uid u)]> ∅)))
         end
     end) w.
Proof.
  intros Hheader Hpiece. unfold OauthUserInfo. rewrite Hheader.
  rewrite bool_decide_eq_false_2 by done.
  unfold strings_HasPrefix. rewrite prefix_app. cbn [negb orb].
  rewrite strings_Split_Bearer.
  destruct (strings_Split rest " ") as [|piece pieces]; [done|].
  injection Hpiece as ->. reflexivity.
Qed.

(** X12: whatever follows a second space in the Authorization header is
    ignored: "Bearer ", a token without a space, a space and anything more
    is handled as "Bearer " and the token alone. *)
Theorem OauthUserInfo_ignores_after_token
    (r r' : Request) (w : World) (token more : string) :
  strings_Contains token " " = false ->
  c_GetHeader r "Authorization" = "Bearer " +:+ token ->
  c_GetHeader r' "Authorization" = "Bearer " +:+ token +:+ " " +:+ more ->
  OauthUserInfo service_OauthUserInfo r' w = OauthUserInfo service_OauthUserInfo r w.
Proof.
  intros Hspace Hheader Hheader'.
  rewrite (OauthUserInfo_Bearer r w token token Hheader)
    by (by rewrite strings_Split_no_sep).
  rewrite (OauthUserInfo_Bearer r' w (token +:+ " " +:+ more) token Hheader')
    by (by rewrite strings_Split_piece).
  reflexivity.
Qed.

(** *** The user-authorization callback *)

Lemma replyAuthError_user_empty (r : Request) (err : option error) (w : World) :
  exists w', replyAuthError r err w = Return ("", err) w'.
Proof. unfold replyAuthError. by eexists. Qed.

(** X13: when the session cannot be started the callback returns that error
    with an empty user id, and the world is as it was. *)
Theorem userAuthorizeHandler_session_error (r : Request) (w : World) (e : error) :
  wSessionErr w = Some e ->
  userAuthorizeHandler util_GetUsername model_LoginTokenKey r w = Return ("", Some e) w.
Proof.
  intros Hstart. unfold userAuthorizeHandler.
  rewrite run_bind. unfold session_Start. by rewrite Hstart.
Qed.

(** X14: the callback names a user only for that user's current login
    token: when it returns a user id that is not empty, the error is nil,
    the form's token resolves to that user, the key-value store holds that
    very token as the user's login token, and nothing was written. *)
Theorem userAuthorizeHandler_user_only_with_login_token
    (r : Request) (w w' : World) (userID : string) (err : option error) :
  userAuthorizeHandler util_GetUsername model_LoginTokenKey r w = Return (userID, err) w' ->
  userID ≠ "" ->
  err = None
  /\ FormValue r "token" ≠ ""
  /\ util_GetUsername (FormValue r "token") = (userID, None)
  /\ (exists ttl, wRdb w !! model_LoginTokenKey userID = Some (FormValue r "token", ttl))
  /\ wWriter w' = wWriter w
  /\ wSessionSaved w' = wSessionSaved w.
Proof.
  unfold userAuthorizeHandler, FormValue.
  rewrite run_bind. unfold session_Start.
  destruct (wSessionErr w) as [e|]; [by intros [= <- _ _] []|].
  set (r1 := ParseForm (ParseMultipartForm r)).
  set (w1 := set_wStore _ w).
  assert (forall e, replyAuthError r1 e w1 = Return (userID, err) w' -> userID ≠ "" -> False)
    as Hfailed.
  { intros e Hrun Hne. destruct (replyAuthError_user_empty r1 e w1) as [w2 Hw2].
    rewrite Hw2 in Hrun. injection Hrun as <- _ _. by destruct Hne. }
  destruct (decide (Values_Get (Form r1) "token" = "")) as [|Htok];
    [intros Hrun Hne; by destruct (Hfailed _ Hrun Hne)|].
  destruct (util_GetUsername (Values_Get (Form r1) "token")) as [username gerr] eqn:Hname.
  destruct gerr as [e|].
  { rewrite bool_decide_eq_true_2 by done. cbn [orb].
    intros Hrun Hne; by destruct (Hfailed _ Hrun Hne). }
  rewrite bool_decide_eq_false_2 by (intros H; by apply H). cbn [orb].
  destruct (bool_decide (username = "")) eqn:Hempty;
    [intros Hrun Hne; by destruct (Hfailed _ Hrun Hne)|].
  rewrite run_bind. unfold Rdb_Get, gets. subst w1. cbn [wRdb set_wStore].
  destruct (wRdb w !! model_LoginTokenKey username) as [[rToken ttl]|] eqn:Hrdb;
    [|intros Hrun Hne; by destruct (Hfailed _ Hrun Hne)].
  destruct (decide (rToken ≠ Values_Get (Form r1) "token")) as [|Hsame%dec_stable];
    [intros Hrun Hne; by destruct (Hfailed _ Hrun Hne)|].
  intros [= <- <- <-] _. subst rToken. by eauto 10.
Qed.

End Handlers.

Section Replay.

Variable util_GetUsername : string -> string * option error.
Variable model_LoginTokenKey : string -> string.
Variable Server_HandleTokenRequest : Server -> Request -> M (option error).
Variable Server_HandleAuthorizeRequest : Server -> Request -> M (option error).

(** *** From the callback to the next authorization request *)

(** The callback after a failed check, with the world it leaves. *)
Lemma run_userAuthorizeHandler_failed (r : Request) (w : World) :
  wSessionErr w = None ->
  FailedCheck util_GetUsername model_LoginTokenKey r w ->
  exists err,
    userAuthorizeHandler util_GetUsername model_LoginTokenKey r w
    = Return ("", err) (auth_failed_world r w).
Proof.
  intros Hstart Hfail. unfold userAuthorizeHandler.
  rewrite run_bind. unfold session_Start. rewrite Hstart.
  unfold ParseMultipartForm. rewrite ParseForm_idemp.
  assert (forall err w1, replyAuthError (ParseForm r) err w1
                         = Return ("", err)
                             (set_wWriter (fun ops => (ops ++ [Write (json_Marshal (Failed AUTH_ERROR))])%list)
                                (set_wWriter (fun ops => (ops ++ [SetHeader "Content-Type" "application/json"])%list)
                                   (set_wSessionSaved
                                      (fun _ => <["ReturnUri" := AnyValues (Form (ParseForm r))]> (wStore w1))
                                      (set_wStore (fun s => <["ReturnUri" := AnyValues (Form (ParseForm r))]> s) w1)))))
    as Hreply.
  { intros err w1. unfold replyAuthError.
    replace (match Form (ParseForm r) with
             | None => ParseForm (ParseForm r)
             | Some _ => ParseForm r
             end) with (ParseForm r)
      by (by destruct (Form (ParseForm r)); rewrite ?ParseForm_idemp).
    reflexivity. }
  destruct Hfail as [Htok|username err Htok Hname Hbad|username Htok Hname Hne Hrdb
                    |username rToken ttl Htok Hname Hne Hrdb Hdiff];
    unfold FormValue, ParseMultipartForm in *; rewrite ParseForm_idemp in *.
  - rewrite decide_True by done. eexists. by rewrite Hreply.
  - rewrite decide_False by done. rewrite Hname.
    assert (bool_decide (err ≠ None) || bool_decide (username = "") = true) as ->.
    { destruct Hbad as [H|H].
      - by rewrite bool_decide_eq_true_2.
      - rewrite (bool_decide_eq_true_2 (username = "")) by done. apply orb_true_r. }
    eexists. by rewrite Hreply.
  - rewrite decide_False by done. rewrite Hname.
    rewrite bool_decide_eq_false_2 by (intros H; by apply H).
    rewrite bool_decide_eq_false_2 by done. cbn [orb].
    rewrite run_bind. unfold Rdb_Get, gets. cbn [wRdb set_wStore].
    rewrite Hrdb. eexists. by rewrite Hreply.
  - rewrite decide_False by done. rewrite Hname.
    rewrite bool_decide_eq_false_2 by (intros H; by apply H).
    rewrite bool_decide_eq_false_2 by done. cbn [orb].
    rewrite run_bind. unfold Rdb_Get, gets. cbn [wRdb set_wStore].
    rewrite Hrdb. rewrite decide_True by done. eexists. by rewrite Hreply.
Qed.

Lemma auth_failed_world_ReturnUri (r : Request) (w : World) :
  wSessionSaved (auth_failed_world r w) !! "ReturnUri"
  = Some (AnyValues (Some (default (parsed_form r) (Form r)))).
Proof.
  unfold auth_failed_world. cbn. by rewrite lookup_insert_eq, ParseForm_Form.
Qed.

(** X15: what the callback stores is what the next [Authorize] replays: after
    a failed check on one request, [Authorize] on a later request of the
    same session calls the library with the form of the first request, the
    later request's token appended, and with "ReturnUri" gone from the
    session again. *)
Theorem userAuthorizeHandler_then_Authorize (r r2 : Request) (w : World) :
  wSessionErr w = None ->
  FailedCheck util_GetUsername model_LoginTokenKey r w ->
  exists err,
    userAuthorizeHandler util_GetUsername model_LoginTokenKey r w
    = Return ("", err) (auth_failed_world r w)
    /\ Authorize util_GetUsername model_LoginTokenKey Server_HandleAuthorizeRequest r2
         (auth_failed_world r w)
       = (Server_HandleAuthorizeRequest (srv util_GetUsername model_LoginTokenKey)
            (set_Form
               (Some (Values_append (default (parsed_form r) (Form r)) "token"
                        (FormValue r2 "token")))
               (ParseForm r2))
          ≫= report_authorize_error) (session_cleared (auth_failed_world r w))
    /\ wStore (session_cleared (auth_failed_world r w)) !! "ReturnUri" = None.
Proof.
  intros Hstart Hfail.
  destruct (run_userAuthorizeHandler_failed r w Hstart Hfail) as [err Hrun].
  exists err. split; [exact Hrun|]. split; [|apply session_cleared_ReturnUri].
  rewrite (run_Authorize util_GetUsername model_LoginTokenKey Server_HandleAuthorizeRequest
             r2 (auth_failed_world r w)).
  - unfold replayed_form. by rewrite auth_failed_world_ReturnUri.
  - exact Hstart.
  - intros v Hheld. rewrite auth_failed_world_ReturnUri in Hheld.
    injection Hheld as <-. by eexists.
Qed.



(** X18: [Authorize] answers 500 with the wrapped error when the library
    returns one, after whatever the library wrote, and writes nothing of its
    own when the library returns nil. *)
Theorem Authorize_reports_library_error
    (r : Request) (w w2 : World) (err : option error) :
  wSessionErr w = None ->
  (forall v, wSessionSaved w !! "ReturnUri" = Some v -> exists m, v = AnyValues (Some m)) ->
  Server_HandleAuthorizeRequest (srv util_GetUsername model_LoginTokenKey)
    (set_Form (replayed_form r w) (ParseForm r)) (session_cleared w) = Return err w2 ->
  Authorize util_GetUsername model_LoginTokenKey Server_HandleAuthorizeRequest r w
  = Return tt
      match err with
      | Some e =>
          set_wWriter
            (fun ops => (ops ++ [JSON http_StatusInternalServerError
                                   (Failed (Wrap InternalErr (Some e)))])%list) w2
      | None => w2
      end.
Proof.
  intros Hstart Htyped Hlib.
  rewrite (run_Authorize _ _ _ r w Hstart Htyped), run_bind, Hlib.
  by destruct err.
Qed.

(** *** Token issuance and refresh *)

(** X19: [AccessToken] and [RefreshToken] answer on opposite outcomes of the
    same library call: whatever the library returns, exactly one of the two
    handlers appends the 500 envelope, and the other leaves the library's
    answer as it is. *)
Theorem AccessToken_RefreshToken_opposite
    (r : Request) (w w' : World) (err : option error) :
  Server_HandleTokenRequest (srv util_GetUsername model_LoginTokenKey) r w = Return err w' ->
  exists wa wr,
    AccessToken util_GetUsername model_LoginTokenKey Server_HandleTokenRequest r w
    = Return tt wa
    /\ RefreshToken util_GetUsername model_LoginTokenKey Server_HandleTokenRequest r w
       = Return tt wr
    /\ (err = None ->
        wa = w' /\ wWriter wr = (wWriter w' ++ [JSON http_StatusInternalServerError
                                                  (Failed (Wrap InternalErr None))])%list)
    /\ (forall e, err = Some e ->
        wr = w' /\ wWriter wa = (wWriter w' ++ [JSON http_StatusInternalServerError
                                                  (Failed (Wrap InternalErr (Some e)))])%list).
Proof.
  intros Hlib. unfold AccessToken, RefreshToken. rewrite !run_bind, Hlib.
  destruct err as [e|]; eexists _, _; (split; [reflexivity|]); (split; [reflexivity|]).
  - split; [done|]. by intros e' [= <-].
  - split; [done|]. by intros e'.
Qed.

End Replay.

(** *** The client-credential resolver and [UserAuth] *)

(** X20: for any grant type but "refresh_token" the resolver reads the
    credentials from the form and nothing from the stores: it returns the
    form's client id and secret, or ClientErr when either is empty, and the
    world is as it was. *)
Theorem clientInfoHandler_form_credentials (r : Request) (w : World) :
  FormValue r "grant_type" ≠ "refresh_token" ->
  clientInfoHandler r w
  = Return
      (if decide (FormValue r "client_id" = "")
       then ("", "", Some (LocalError_error ClientErr))
       else if decide (FormValue r "client_secret" = "")
            then ("", "", Some (LocalError_error ClientErr))
            else (FormValue r "client_id", FormValue r "client_secret", None))
      w.
Proof.
  unfold FormValue. intros Hgrant. unfold clientInfoHandler.
  rewrite decide_False by done.
  destruct (decide (Values_Get _ "client_id" = "")); [reflexivity|].
  by destruct (decide (Values_Get _ "client_secret" = "")).
Qed.

(** X21: the resolver always returns, and either with credentials or with
    an error, never with both or neither: a nil error comes with a client id
    and a secret that are not empty, an error with both empty.  It writes
    nothing and changes no store. *)
Theorem clientInfoHandler_credentials_or_error (r : Request) (w : World) :
  exists clientID clientSecret err w',
    clientInfoHandler r w = Return (clientID, clientSecret, err) w'
    /\ (err = None /\ clientID ≠ "" /\ clientSecret ≠ ""
        \/ err ≠ None /\ clientID = "" /\ clientSecret = "")
    /\ wWriter w' = wWriter w
    /\ wClients w' = wClients w
    /\ wRefresh w' = wRefresh w.
Proof.
  unfold clientInfoHandler.
  destruct (decide (Values_Get _ "grant_type" = "refresh_token")) as [Hgrant|Hgrant].
  - rewrite run_bind. unfold Manager_LoadRefreshToken.
    rewrite run_bind. unfold log_call at 1, modify, gets. cbn [wRefresh set_wCalls].
    destruct (wRefresh w !! _) as [ti|];
      [|eexists _, _, _, _; split; [reflexivity|]; split; [right|]; done].
    destruct (decide (GetClientID ti = ""));
      [eexists _, _, _, _; split; [reflexivity|]; split; [right|]; done|].
    rewrite run_bind. unfold Manager_GetClient.
    rewrite run_bind. unfold log_call, modify, gets. cbn [wClients set_wCalls].
    destruct (wClients w !! _) as [cli|];
      [|eexists _, _, _, _; split; [reflexivity|]; split; [right|]; done].
    destruct (decide (Secret cli = ""));
      eexists _, _, _, _; (split; [reflexivity|]); (split; [|done]); [right|left]; done.
  - destruct (decide (Values_Get _ "client_id" = ""));
      [eexists _, _, _, _; split; [reflexivity|]; split; [right|]; done|].
    destruct (decide (Values_Get _ "client_secret" = ""));
      eexists _, _, _, _; (split; [reflexivity|]); (split; [|done]); [right|left]; done.
Qed.

(** X22: [UserAuth] only tests that the body carries a token: any token that
    is not empty passes with nothing written and nothing looked up, and a
    request without one gets the AUTH_ERROR envelope; the session is never
    touched. *)
Theorem UserAuth_only_tests_presence (r : Request) (w : World) :
  exists w',
    UserAuth r w = Return tt w'
    /\ (c_PostForm r "token" ≠ "" -> w' = w)
    /\ (c_PostForm r "token" = "" ->
        wWriter w' = (wWriter w ++ [SetHeader "Content-Type" "application/json";
                                      Write (json_Marshal (Failed AUTH_ERROR))])%list)
    /\ wStore w' = wStore w
    /\ wSessionSaved w' = wSessionSaved w.
Proof.
  unfold UserAuth.
  assert (c_PostForm (ParseMultipartForm r) "token" = c_PostForm r "token") as ->.
  { unfold ParseMultipartForm, ParseForm, c_PostForm. by destruct (Form r). }
  destruct (decide (c_PostForm r "token" = "")) as [Hempty|Hgiven].
  - eexists. split; [reflexivity|]. cbn.
    split; [by intros H|]. split; [|done]. intros _. by rewrite <- app_assoc.
  - eexists. split; [reflexivity|]. by repeat split.
Qed.

(** ** The further properties at work *)

(** X1 at work: alice, by her email, with her stored password. *)
Lemma CheckPassword_true_only_on_match_witness :
  CheckPassword "alice@njupt.edu.cn" "hash-of-password" alice_registered
  = Return (true, None) alice_registered
  /\ exists u,
      wDb alice_registered (CheckPassword_query "alice@njupt.edu.cn") = Row u
      /\ Password u = Some "hash-of-password".
Proof.
  assert (CheckPassword "alice@njupt.edu.cn" "hash-of-password" alice_registered
          = Return (true, None) alice_registered) as Hrun by (vm_compute; reflexivity).
  split; [exact Hrun|].
  exact (CheckPassword_true_only_on_match _ _ _ _ _ Hrun).
Defined.

(** X2 at work: alice, by her uid, with another password. *)
Lemma CheckPassword_returns_no_error_witness :
  CheckPassword "B21010101" "guess" alice_registered = Return (false, None) alice_registered
  /\ (@None error = None /\ alice_registered = alice_registered
      /\ exists u, wDb alice_registered (CheckPassword_query "B21010101") = Row u).
Proof.
  assert (CheckPassword "B21010101" "guess" alice_registered
          = Return (false, None) alice_registered) as Hrun by (vm_compute; reflexivity).
  split; [exact Hrun|].
  exact (CheckPassword_returns_no_error _ _ _ _ _ _ Hrun).
Defined.

(** X3 at work: alice exists; and the database cannot be reached. *)
Lemma VerifyAccount_no_ticket_witness :
  VerifyAccount demo_GenerateToken "alice@njupt.edu.cn" alice_registered
  = Return (true, "", None) alice_registered
  /\ VerifyAccount demo_GenerateToken "alice@njupt.edu.cn" db_unreachable
     = Return (true, "", Some (errors_New "dial tcp: connection refused")) db_unreachable.
Proof.
  split.
  - apply (VerifyAccount_no_ticket demo_GenerateToken "alice@njupt.edu.cn" alice_registered).
    vm_compute. discriminate.
  - apply (VerifyAccount_no_ticket demo_GenerateToken "alice@njupt.edu.cn" db_unreachable).
    vm_compute. discriminate.
Defined.

(** X4 at work: bob's verification and carol's ticket. *)
Lemma VerifyAccount_other_tickets_witness :
  "carol@njupt.edu.cn" ≠ "bob@njupt.edu.cn"
  /\ wRdb (set_wRdb (fun kv => <["TICKET:bob@njupt.edu.cn"
                                  := ("ticket-of-bob@njupt.edu.cn", time_Minute * 5)%Z]> kv)
             empty_World) !! ("TICKET:" +:+ "carol@njupt.edu.cn")
     = wRdb empty_World !! ("TICKET:" +:+ "carol@njupt.edu.cn").
Proof.
  split; [discriminate|].
  refine (VerifyAccount_other_tickets demo_GenerateToken "bob@njupt.edu.cn"
            "carol@njupt.edu.cn" empty_World _
            (false, "ticket-of-bob@njupt.edu.cn", None) _ _).
  - vm_compute. reflexivity.
  - discriminate.
Defined.

(** X7 at work: bob's ticket and bob's verification code. *)
Lemma ticket_survives_verify_code_witness :
  exists w2,
    GenerateVerifyCode "493027" "bob@njupt.edu.cn"
      (set_wRdb (fun kv => <["TICKET:bob@njupt.edu.cn"
                             := ("ticket-of-bob@njupt.edu.cn", time_Minute * 5)%Z]> kv)
         empty_World)
    = Return "493027" w2
    /\ wRdb w2 !! ("TICKET:" +:+ "bob@njupt.edu.cn")
       = Some ("ticket-of-bob@njupt.edu.cn", 300 * time_Second)%Z
    /\ wRdb w2 !! ("VERIFY_CODE:" +:+ "bob@njupt.edu.cn")
       = Some ("493027", 300 * time_Second)%Z.
Proof.
  refine (ticket_survives_verify_code demo_GenerateToken "493027" "bob@njupt.edu.cn"
            "bob@njupt.edu.cn" empty_World _ "ticket-of-bob@njupt.edu.cn" _).
  vm_compute. reflexivity.
Defined.

(** X8 at work: a registration with a redirect URI. *)
Lemma CreateClient_registers_client_witness :
  exists data w',
    CreateClient "6ba7b810-9dad-11d1-80b4-00c04fd430c8" demo_GenerateRandomString
      (form_request {["redirect_uri" := ["https://app.example"]]}) empty_World
    = Return tt w'
    /\ wWriter w' = [JSON 200 (Success data)]
    /\ data !! "client_id" = Some (VString "6ba7b810-9dad-11d1-80b4-00c04fd430c8")
    /\ data !! "client_secret" = Some (VString "0123456789abcdef0123456789abcdef")
    /\ wClients w' !! "6ba7b810-9dad-11d1-80b4-00c04fd430c8"
       = Some (mkClient "6ba7b810-9dad-11d1-80b4-00c04fd430c8"
                 "0123456789abcdef0123456789abcdef"
                 (c_PostForm (form_request {["redirect_uri" := ["https://app.example"]]})
                    "redirect_uri"))
    /\ forall id, id ≠ "6ba7b810-9dad-11d1-80b4-00c04fd430c8" ->
                  wClients w' !! id = wClients empty_World !! id.
Proof.
  refine (CreateClient_registers_client "6ba7b810-9dad-11d1-80b4-00c04fd430c8"
            demo_GenerateRandomString
            (form_request {["redirect_uri" := ["https://app.example"]]}) empty_World
            "0123456789abcdef0123456789abcdef" _ eq_refl eq_refl).
  vm_compute. discriminate.
Defined.

(** X10 at work: the new client's refresh token "rt-9". *)
Lemma CreateClient_then_clientInfoHandler_witness :
  exists w1 w2,
    CreateClient "6ba7b810-9dad-11d1-80b4-00c04fd430c8" demo_GenerateRandomString
      (form_request {["redirect_uri" := ["https://app.example"]]})
      refresh_token_of_new_client = Return tt w1
    /\ clientInfoHandler
         (form_request {["grant_type" := ["refresh_token"]; "refresh_token" := ["rt-9"]]}) w1
       = Return ("6ba7b810-9dad-11d1-80b4-00c04fd430c8",
                 "0123456789abcdef0123456789abcdef", None) w2.
Proof.
  refine (CreateClient_then_clientInfoHandler "6ba7b810-9dad-11d1-80b4-00c04fd430c8"
            demo_GenerateRandomString
            (form_request {["redirect_uri" := ["https://app.example"]]})
            (form_request {["grant_type" := ["refresh_token"]; "refresh_token" := ["rt-9"]]})
            refresh_token_of_new_client "0123456789abcdef0123456789abcdef"
            (mkTokenInfo "6ba7b810-9dad-11d1-80b4-00c04fd430c8" "B21010101" "all")
            _ eq_refl eq_refl _ _ _ _ eq_refl).
  - vm_compute. discriminate.
  - discriminate.
  - discriminate.
  - vm_compute. reflexivity.
  - vm_compute. reflexivity.
Defined.

(** X11 at work: a token that is not among the live ones. *)
Lemma OauthUserInfo_token_not_loaded_witness :
  OauthUserInfo lookup_finds_alice (bearer_request "at-2") one_access_token
  = Return tt
      (set_wWriter (fun ops => (ops ++ [JSON 200 (Failed AccessTokenErr)])%list)
         (set_wCalls (fun cs => (cs ++ [LoadAccessToken_call "at-2"])%list)
            one_access_token)).
Proof.
  exact (OauthUserInfo_token_not_loaded lookup_finds_alice (bearer_request "at-2")
           one_access_token "at-2" eq_refl eq_refl eq_refl).
Defined.

(** X12 at work: "Bearer at-1 and more". *)
Lemma OauthUserInfo_ignores_after_token_witness :
  OauthUserInfo lookup_finds_alice (bearer_request "at-1 and more") one_access_token
  = OauthUserInfo lookup_finds_alice (bearer_request "at-1") one_access_token.
Proof.
  exact (OauthUserInfo_ignores_after_token lookup_finds_alice (bearer_request "at-1")
           (bearer_request "at-1 and more") one_access_token "at-1" "and more"
           eq_refl eq_refl eq_refl).
Defined.

(** X13 at work: the session backend is down. *)
Lemma userAuthorizeHandler_session_error_witness :
  userAuthorizeHandler demo_GetUsername demo_LoginTokenKey
    (form_request {["token" := ["alice-token"]]}) session_down
  = Return ("", Some (errors_New "session: store unavailable")) session_down.
Proof.
  exact (userAuthorizeHandler_session_error demo_GetUsername demo_LoginTokenKey
           (form_request {["token" := ["alice-token"]]}) session_down _ eq_refl).
Defined.

(** X14 at work: alice presents her current login token. *)
Lemma userAuthorizeHandler_user_only_with_login_token_witness :
  demo_GetUsername (FormValue (form_request {["token" := ["alice-token"]]}) "token")
  = ("alice", None)
  /\ exists ttl,
      wRdb alice_logged_in !! demo_LoginTokenKey "alice"
      = Some (FormValue (form_request {["token" := ["alice-token"]]}) "token", ttl).
Proof.
  assert (userAuthorizeHandler demo_GetUsername demo_LoginTokenKey
            (form_request {["token" := ["alice-token"]]}) alice_logged_in
          = Return ("alice", None) (set_wStore (fun _ => ∅) alice_logged_in)) as Hrun
    by (vm_compute; reflexivity).
  assert ("alice" ≠ "") as Hne by discriminate.
  destruct (userAuthorizeHandler_user_only_with_login_token demo_GetUsername
              demo_LoginTokenKey _ _ _ _ _ Hrun Hne) as (_ & _ & Hname & Hrdb & _).
  split; [exact Hname|exact Hrdb].
Defined.

(** X15 at work: an authorization request without a token, then the same
    session comes back with alice's token. *)
Lemma userAuthorizeHandler_then_Authorize_witness :
  exists err,
    userAuthorizeHandler demo_GetUsername demo_LoginTokenKey authorize_request empty_World
    = Return ("", err) (auth_failed_world authorize_request empty_World)
    /\ Authorize demo_GetUsername demo_LoginTokenKey authorize_asks_user
         (form_request {["token" := ["alice-token"]]})
         (auth_failed_world authorize_request empty_World)
       = (authorize_asks_user (srv demo_GetUsername demo_LoginTokenKey)
            (set_Form
               (Some (Values_append
                        (default (parsed_form authorize_request) (Form authorize_request))
                        "token"
                        (FormValue (form_request {["token" := ["alice-token"]]}) "token")))
               (ParseForm (form_request {["token" := ["alice-token"]]})))
          ≫= report_authorize_error)
           (session_cleared (auth_failed_world authorize_request empty_World))
    /\ wStore (session_cleared (auth_failed_world authorize_request empty_World))
         !! "ReturnUri" = None.
Proof.
  apply (userAuthorizeHandler_then_Authorize demo_GetUsername demo_LoginTokenKey
           authorize_asks_user authorize_request
           (form_request {["token" := ["alice-token"]]}) empty_World eq_refl).
  apply token_missing. vm_compute. reflexivity.
Defined.



(** X18 at work: the library rejects the client. *)
Lemma Authorize_reports_library_error_witness :
  Authorize demo_GetUsername demo_LoginTokenKey authorize_fails authorize_request empty_World
  = Return tt
      (set_wWriter
         (fun ops => (ops ++ [JSON 500 (Failed (Wrap InternalErr
                                                   (Some oauth2_ErrInvalidClient)))])%list)
         (session_cleared empty_World)).
Proof.
  refine (Authorize_reports_library_error demo_GetUsername demo_LoginTokenKey
            authorize_fails authorize_request empty_World (session_cleared empty_World)
            (Some oauth2_ErrInvalidClient) eq_refl _ eq_refl).
  intros v Hheld. vm_compute in Hheld. discriminate.
Defined.

(** X19 at work: one library call that succeeds. *)
Lemma AccessToken_RefreshToken_opposite_witness :
  exists wa wr,
    AccessToken demo_GetUsername demo_LoginTokenKey token_request_ok
      (form_request {["grant_type" := ["refresh_token"]]}) empty_World = Return tt wa
    /\ RefreshToken demo_GetUsername demo_LoginTokenKey token_request_ok
         (form_request {["grant_type" := ["refresh_token"]]}) empty_World = Return tt wr
    /\ (@None error = None ->
        wa = empty_World
        /\ wWriter wr = (wWriter empty_World
                         ++ [JSON http_StatusInternalServerError
                               (Failed (Wrap InternalErr None))])%list)
    /\ (forall e, None = Some e ->
        wr = empty_World
        /\ wWriter wa = (wWriter empty_World
                         ++ [JSON http_StatusInternalServerError
                               (Failed (Wrap InternalErr (Some e)))])%list).
Proof.
  exact (AccessToken_RefreshToken_opposite demo_GetUsername demo_LoginTokenKey
           token_request_ok (form_request {["grant_type" := ["refresh_token"]]})
           empty_World empty_World None eq_refl).
Defined.

(** X20 at work: an authorization-code grant with the credentials in the
    form. *)
Lemma clientInfoHandler_form_credentials_witness :
  clientInfoHandler
    (form_request {["grant_type" := ["authorization_code"]; "client_id" := ["c1"];
                    "client_secret" := ["c1-secret"]]}) empty_World
  = Return ("c1", "c1-secret", None) empty_World.
Proof.
  assert (FormValue
            (form_request {["grant_type" := ["authorization_code"]; "client_id" := ["c1"];
                            "client_secret" := ["c1-secret"]]}) "grant_type"
          ≠ "refresh_token") as Hgrant by (vm_compute; discriminate).
  exact (clientInfoHandler_form_credentials _ empty_World Hgrant).
Defined.

(** X23 at work: the lookup returns alice and a warning. *)
Lemma OauthUserInfo_user_and_error_witness :
  OauthUserInfo lookup_warns (bearer_request "at-1") one_access_token
  = Return tt
      (set_wWriter (fun ops => (ops ++ [JSON 200 (Failed GET_USERINFO_FAIL)])%list)
         (at_user_lookup "at-1" "B21010101" one_access_token)).
Proof.
  exact (OauthUserInfo_user_and_error lookup_warns (bearer_request "at-1")
           one_access_token (at_user_lookup "at-1" "B21010101" one_access_token)
           "at-1" (mkTokenInfo "c1" "B21010101" "all") alice
           (errors_New "profile is incomplete") eq_refl eq_refl eq_refl eq_refl).
Defined.

(** X24 at work: alice presents her current login token. *)
Lemma userAuthorizeHandler_logged_in_witness :
  userAuthorizeHandler demo_GetUsername demo_LoginTokenKey
    (form_request {["token" := ["alice-token"]]}) alice_logged_in
  = Return ("alice", None)
      (set_wStore (fun _ => wSessionSaved alice_logged_in) alice_logged_in).
Proof.
  refine (userAuthorizeHandler_logged_in demo_GetUsername demo_LoginTokenKey
            (form_request {["token" := ["alice-token"]]}) alice_logged_in "alice"
            (3600 * time_Second)%Z eq_refl _ eq_refl _ _).
  - vm_compute. discriminate.
  - discriminate.
  - vm_compute. reflexivity.
Defined.

(** X25 at work: the session backend is down. *)
Lemma Authorize_session_error_witness :
  Authorize demo_GetUsername demo_LoginTokenKey authorize_asks_user authorize_request
    session_down
  = Return tt
      (set_wWriter
         (fun ops => (ops ++ [JSON 500 (Failed (Wrap InternalErr
                                (Some (errors_New "session: store unavailable"))))])%list)
         session_down).
Proof.
  exact (Authorize_session_error demo_GetUsername demo_LoginTokenKey authorize_asks_user
           authorize_request session_down _ eq_refl).
Defined.

(** X26 at work: the session holds a string under "ReturnUri". *)
Lemma Authorize_foreign_entry_witness :
  exists msg w',
    Authorize demo_GetUsername demo_LoginTokenKey authorize_asks_user authorize_request
      foreign_session_entry = Panic msg w'.
Proof.
  refine (Authorize_foreign_entry demo_GetUsername demo_LoginTokenKey authorize_asks_user
            authorize_request foreign_session_entry (AnyString "/dashboard") eq_refl _ _).
  - vm_compute. reflexivity.
  - discriminate.
Defined.

(** X27 at work: the library succeeds and leaves the session alone. *)
Lemma Authorize_session_untouched_witness :
  exists w',
    Authorize demo_GetUsername demo_LoginTokenKey authorize_succeeds
      (form_request {["token" := ["alice-token"]]}) pending_authorization = Return tt w'
    /\ wStore w' !! "ReturnUri" = None.
Proof.
  refine (Authorize_session_untouched demo_GetUsername demo_LoginTokenKey
            authorize_succeeds (form_request {["token" := ["alice-token"]]})
            pending_authorization (session_cleared pending_authorization) None
            eq_refl _ eq_refl eq_refl).
  intros v Hheld. vm_compute in Hheld. injection Hheld as <-. by eexists.
Defined.
